(** * Report generator: task list, report text, validation and history

    A shallow embedding of the data layer of the report tool
    (js/utils.js, js/TaskManager.js, js/StorageManager.js and
    js/ReportManager.js) together with the properties of its
    specification that concern that layer.

    JavaScript strings are sequences of UTF-16 code units; [trim], [length]
    and the regular expression of the Work BOM all work on code units, so a
    string is modelled as a list of code units. *)

From Stdlib Require Import ZArith NArith Bool Ascii String DecimalString Lia.
From stdpp Require Import base list.

Local Open Scope N_scope.

(* ===================================================================== *)
(** * JavaScript strings *)
(* ===================================================================== *)

Module JS.

Definition char16 := N.
Definition jsstring := list char16.

(** ** Literals

    String literals of the source are written as Rocq strings (their UTF-8
    bytes) and converted to UTF-16 code units. *)

Definition cont (b : N) : N := N.land b 0x3F.

Fixpoint utf8_decode (bs : list N) : list N :=
  match bs with
  | [] => []
  | b0 :: r0 =>
    if b0 <? 0x80 then b0 :: utf8_decode r0
    else if b0 <? 0xE0 then
      match r0 with
      | b1 :: r1 =>
        N.lor (N.shiftl (N.land b0 0x1F) 6) (cont b1) :: utf8_decode r1
      | _ => []
      end
    else if b0 <? 0xF0 then
      match r0 with
      | b1 :: b2 :: r2 =>
        N.lor (N.shiftl (N.land b0 0x0F) 12)
              (N.lor (N.shiftl (cont b1) 6) (cont b2)) :: utf8_decode r2
      | _ => []
      end
    else
      match r0 with
      | b1 :: b2 :: b3 :: r3 =>
        N.lor (N.shiftl (N.land b0 0x07) 18)
              (N.lor (N.shiftl (cont b1) 12)
                     (N.lor (N.shiftl (cont b2) 6) (cont b3))) :: utf8_decode r3
      | _ => []
      end
  end.

Definition utf16_encode (cp : N) : list char16 :=
  if cp <? 0x10000 then [cp]
  else let c := cp - 0x10000 in
       [0xD800 + N.shiftr c 10; 0xDC00 + N.land c 0x3FF].

Definition lit (s : string) : jsstring :=
  utf8_decode (map N_of_ascii (list_ascii_of_string s)) ≫= utf16_encode.

#[global] Arguments lit : simpl never.

(** ** Truthiness, equality, concatenation *)

(** A string is falsy exactly when it is empty. *)
Definition truthy (s : jsstring) : bool :=
  match s with [] => false | _ :: _ => true end.

(** [s === t] on strings. *)
Definition streq (s t : jsstring) : bool := bool_decide (s = t).

(** [parts.join(sep)]. *)
Fixpoint join (sep : jsstring) (parts : list jsstring) : jsstring :=
  match parts with
  | [] => []
  | [p] => p
  | p :: rest => p ++ sep ++ join sep rest
  end.

(** Decimal rendering of a non-negative integer, as a template literal
    renders an array index. *)
Definition numToString (n : nat) : jsstring :=
  lit (NilEmpty.string_of_uint (Nat.to_uint n)).

(** ** [String.prototype.trim]

    [trim] strips WhiteSpace and LineTerminator code points from both ends:
    TAB, LF, VT, FF, CR, SPACE, NBSP, U+1680, U+2000..U+200A, U+2028, U+2029,
    U+202F, U+205F, U+3000 and U+FEFF. All of them are single code units. *)
Definition isWhiteSpace (c : char16) : bool :=
  ((0x09 <=? c) && (c <=? 0x0D))
  || (c =? 0x20) || (c =? 0xA0) || (c =? 0x1680)
  || ((0x2000 <=? c) && (c <=? 0x200A))
  || (c =? 0x2028) || (c =? 0x2029) || (c =? 0x202F) || (c =? 0x205F)
  || (c =? 0x3000) || (c =? 0xFEFF).

Fixpoint trimStart (s : jsstring) : jsstring :=
  match s with
  | c :: r => if isWhiteSpace c then trimStart r else s
  | [] => []
  end.

Definition trimEnd (s : jsstring) : jsstring := rev (trimStart (rev s)).

Definition trim (s : jsstring) : jsstring := trimEnd (trimStart s).

(** ** Regular expressions

    The one regular expression of the program is a sequence of
    single-character atoms, some with a fixed repetition count, anchored at
    both ends. Such a pattern is matched left to right without backtracking. *)

Inductive CharClass :=
| Lit (c : char16)            (* a literal character *)
| Range (lo hi : char16)      (* [lo-hi] *)
| Digit.                      (* \d, the ASCII digits *)

Inductive Term :=
| Atom (cl : CharClass)
| Repeat (cl : CharClass) (n : nat).    (* cl{n} *)

Definition toUpperAscii (c : char16) : char16 :=
  if (0x61 <=? c) && (c <=? 0x7A) then c - 0x20 else c.

Definition toLowerAscii (c : char16) : char16 :=
  if (0x41 <=? c) && (c <=? 0x5A) then c + 0x20 else c.

(** Under the [i] flag (without [u]) two code units match when their
    canonical forms agree; Canonicalize never maps a code unit above 127 to
    an ASCII one, so for classes of ASCII characters only the ASCII case
    pairs matter. *)
Definition inClass (cl : CharClass) (c : char16) : bool :=
  match cl with
  | Lit x => c =? x
  | Range lo hi => (lo <=? c) && (c <=? hi)
  | Digit => (0x30 <=? c) && (c <=? 0x39)
  end.

Definition classMatches (ignoreCase : bool) (cl : CharClass) (c : char16) : bool :=
  if ignoreCase
  then inClass cl c || inClass cl (toUpperAscii c) || inClass cl (toLowerAscii c)
  else inClass cl c.

Fixpoint matchRepeat (ic : bool) (cl : CharClass) (n : nat) (s : jsstring)
  : option jsstring :=
  match n with
  | O => Some s
  | S n' =>
    match s with
    | c :: r => if classMatches ic cl c then matchRepeat ic cl n' r else None
    | [] => None
    end
  end.

Definition matchTerm (ic : bool) (t : Term) (s : jsstring) : option jsstring :=
  match t with
  | Atom cl => matchRepeat ic cl 1 s
  | Repeat cl n => matchRepeat ic cl n s
  end.

(** [/^ ... $/.test(s)]: every term in turn, then the end of the input. *)
Fixpoint test (ic : bool) (pattern : list Term) (s : jsstring) : bool :=
  match pattern with
  | [] => match s with [] => true | _ => false end
  | t :: pattern' =>
    match matchTerm ic t s with
    | Some r => test ic pattern' r
    | None => false
    end
  end.

End JS.

Export JS.

(* ===================================================================== *)
(** * js/utils.js *)
(* ===================================================================== *)

Module Utils.

(** [/^WB-[A-Z]\d{4}-\d{4}-[A-Z]$/i] *)
Definition pattern : list Term :=
  [ Atom (Lit 0x57); Atom (Lit 0x42); Atom (Lit 0x2D);
    Atom (Range 0x41 0x5A); Repeat Digit 4; Atom (Lit 0x2D);
    Repeat Digit 4; Atom (Lit 0x2D); Atom (Range 0x41 0x5A) ].

Definition validateWorkBom (value : jsstring) : bool :=
  if negb (truthy value) || streq (trim value) [] then true
  else test true pattern (trim value).

Definition validateProjectName (value : jsstring) : bool :=
  if negb (truthy value) || streq (trim value) [] then true
  else
    let trimmed := trim value in
    (3 <=? length trimmed)%nat && (length trimmed <=? 200)%nat.

(** [escapeHTML]: the entity table [map], and the replacement of every
    ampersand, angle bracket, double quote and single quote by its entry. *)
Definition map (m : char16) : option jsstring :=
  if m =? 0x26 then Some (lit "&amp;")
  else if m =? 0x3C then Some (lit "&lt;")
  else if m =? 0x3E then Some (lit "&gt;")
  else if m =? 0x22 then Some (lit "&quot;")
  else if m =? 0x27 then Some (lit "&#039;")
  else None.

Definition htmlSpecial (c : char16) : bool :=
  (c =? 0x26) || (c =? 0x3C) || (c =? 0x3E) || (c =? 0x22) || (c =? 0x27).

Definition replaceSpecial (c : char16) : jsstring :=
  if htmlSpecial c
  then match map c with
       | Some entity => entity
       | None => lit "undefined"   (* not reached: the class is the key set *)
       end
  else [c].

Definition escapeHTML (str : jsstring) : jsstring :=
  if negb (truthy str) then [] else str ≫= replaceSpecial.

End Utils.

(* ===================================================================== *)
(** * Data model *)
(* ===================================================================== *)

(** A task row. [status] is the text of the selected option ("OK",
    "Pending", "In Progress", "Waiting", "NG" or "-"). *)
Record Task := mkTask {
  detail : jsstring;
  status : jsstring;
  remark : jsstring
}.

(** The JSON-shaped report object that is handed around: the result of
    [getState], the [data] of a history item and of an import envelope.
    A property that may be missing in such an object is an [option]. *)
Record ReportData := mkReportData {
  workBom : option jsstring;
  projectName : option jsstring;
  problems : option jsstring;
  tasks : option (list Task)
}.

Record HistoryItem := mkHistoryItem {
  timestamp : jsstring;
  data : ReportData
}.

(** Truthiness of a possibly missing string property, and [x || ''] . *)
Definition truthyProp (x : option jsstring) : bool :=
  match x with Some s => truthy s | None => false end.

Definition orEmpty (x : option jsstring) : jsstring :=
  match x with Some s => if truthy s then s else [] | None => [] end.

#[global] Instance Task_eq_dec : EqDecision Task.
Proof. solve_decision. Defined.
#[global] Instance ReportData_eq_dec : EqDecision ReportData.
Proof. solve_decision. Defined.
#[global] Instance HistoryItem_eq_dec : EqDecision HistoryItem.
Proof. solve_decision. Defined.

(** A validation error: [{index, field, message}] for a task,
    [{field, message}] for a scalar field. *)
Module Error.
Record t := mk {
  index : option nat;
  field : jsstring;
  message : jsstring
}.
End Error.

(** The result [{valid, errors}] of both [validate] methods. *)
Module Validation.
Record t := mk {
  valid : bool;
  errors : list Error.t
}.
End Validation.

(* ===================================================================== *)
(** * js/TaskManager.js *)
(* ===================================================================== *)

Module TaskManager.

(** The manager holds the task array; [notifications] counts the calls of
    [notifyListeners]. *)
Record t := mk {
  tasks : list Task;
  notifications : nat
}.

(** The argument of [addTask] and [updateTask]: an object with some of the
    task fields. *)
Record Partial := mkPartial {
  p_detail : option jsstring;
  p_status : option jsstring;
  p_remark : option jsstring
}.

Definition noFields : Partial := mkPartial None None None.

Definition init : t := mk [] 0.

Definition notifyListeners (tm : t) : t :=
  mk (tasks tm) (S (notifications tm)).

Definition setTasks (ts : option (list Task)) (tm : t) : t :=
  notifyListeners (mk (default [] ts) (notifications tm)).

Definition getTasks (tm : t) : list Task := tasks tm.

Definition addTask (task : Partial) (tm : t) : nat * t :=
  let newTask :=
    {| detail := orEmpty (p_detail task);
       status := if truthyProp (p_status task) then orEmpty (p_status task)
                 else lit "OK";
       remark := orEmpty (p_remark task) |} in
  let tm' := notifyListeners (mk (tasks tm ++ [newTask]) (notifications tm)) in
  ((length (tasks tm') - 1)%nat, tm').

Definition merge (task : Task) (updates : Partial) : Task :=
  {| detail := default (detail task) (p_detail updates);
     status := default (status task) (p_status updates);
     remark := default (remark task) (p_remark updates) |}.

Definition outOfRange (index : Z) (tm : t) : bool :=
  ((index <? 0) || (Z.of_nat (length (tasks tm)) <=? index))%Z.

Definition updateTask (index : Z) (updates : Partial) (tm : t) : bool * t :=
  if outOfRange index tm then (false, tm)
  else
    let i := Z.to_nat index in
    match tasks tm !! i with
    | Some task =>
      (true, notifyListeners
               (mk (<[i := merge task updates]> (tasks tm)) (notifications tm)))
    | None => (false, tm)   (* not reached: [i] is in range *)
    end.

Definition removeTask (index : Z) (tm : t) : bool * t :=
  if outOfRange index tm then (false, tm)
  else
    (true, notifyListeners
             (mk (delete (Z.to_nat index) (tasks tm)) (notifications tm))).

(** [[a[i], a[j]] = [a[j], a[i]]]: both elements are read, then both are
    written. The callers check that [i] and [j] are inside the array. *)
Definition swap (i j : nat) (l : list Task) : option (list Task) :=
  match l !! j, l !! i with
  | Some y, Some x => Some (<[j := x]> (<[i := y]> l))
  | _, _ => None
  end.

Definition moveTaskUp (index : Z) (tm : t) : bool * t :=
  if ((index <=? 0) || (Z.of_nat (length (tasks tm)) <=? index))%Z
  then (false, tm)
  else
    let i := Z.to_nat index in
    match swap (i - 1) i (tasks tm) with
    | Some l => (true, notifyListeners (mk l (notifications tm)))
    | None => (false, tm)   (* not reached: both indices are in range *)
    end.

Definition moveTaskDown (index : Z) (tm : t) : bool * t :=
  if ((index <? 0) || (Z.of_nat (length (tasks tm)) - 1 <=? index))%Z
  then (false, tm)
  else
    let i := Z.to_nat index in
    match swap i (i + 1) (tasks tm) with
    | Some l => (true, notifyListeners (mk l (notifications tm)))
    | None => (false, tm)   (* not reached: both indices are in range *)
    end.

Definition clearTasks (tm : t) : t :=
  notifyListeners (mk [] (notifications tm)).

Definition getTaskCount (tm : t) : nat := length (tasks tm).

Definition isEmpty (tm : t) : bool :=
  (length (tasks tm) =? 0)%nat
  || forallb (fun task => negb (truthy (trim (detail task)))) (tasks tm).

(** [this.tasks.forEach((task, index) => ...)] with the value the callback
    updates. *)
Fixpoint forEach {St : Type} (f : St -> Task -> nat -> St) (l : list Task)
  (index : nat) (acc : St) : St :=
  match l with
  | [] => acc
  | x :: l' => forEach f l' (S index) (f acc x index)
  end.

Definition validateCallback (errors : list Error.t) (task : Task) (index : nat)
  : list Error.t :=
  let errors :=
    if truthy (detail task) && (500 <? length (detail task))%nat
    then errors ++ [Error.mk (Some index) (lit "detail")
                      (lit "รายละเอียดงานยาวเกินไป (สูงสุด 500 ตัวอักษร)")]
    else errors in
  let errors :=
    if truthy (remark task) && (200 <? length (remark task))%nat
    then errors ++ [Error.mk (Some index) (lit "remark")
                      (lit "หมายเหตุยาวเกินไป (สูงสุด 200 ตัวอักษร)")]
    else errors in
  errors.

Definition validate (tm : t) : Validation.t :=
  let errors := forEach validateCallback (tasks tm) 0%nat [] in
  {| Validation.valid := (length errors =? 0)%nat; Validation.errors := errors |}.

Record Summary := mkSummary {
  total : nat;
  ok : nat;
  ng : nat;
  pending : nat;
  inProgress : nat;
  waiting : nat;
  other : nat
}.

Section Summary.

(** [String.prototype.toLowerCase], whose case table belongs to the
    language and not to the program. *)
Variable toLowerCase : jsstring -> jsstring.

Definition summaryCallback (summary : Summary) (task : Task) (index : nat)
  : Summary :=
  let status := toLowerCase (status task) in
  let '(mkSummary t o n p i w x) := summary in
  if streq status (lit "ok") then mkSummary t (S o) n p i w x
  else if streq status (lit "ng") then mkSummary t o (S n) p i w x
  else if streq status (lit "pending") then mkSummary t o n (S p) i w x
  else if streq status (lit "in progress") then mkSummary t o n p (S i) w x
  else if streq status (lit "waiting") then mkSummary t o n p i (S w) x
  else mkSummary t o n p i w (S x).

Definition getSummary (tm : t) : Summary :=
  let summary := mkSummary (length (tasks tm)) 0 0 0 0 0 0 in
  forEach summaryCallback (tasks tm) 0%nat summary.

End Summary.

End TaskManager.

(* ===================================================================== *)
(** * js/StorageManager.js *)
(* ===================================================================== *)

Module StorageManager.

Definition MAX_HISTORY_ITEMS : nat := 20.

(** The three keys of [localStorage] the program uses. Values are written
    with [JSON.stringify] and read back with [JSON.parse]; the model stores
    the value itself, [None] standing for a missing key. *)
Record LocalStorage := mkLocalStorage {
  reportData : option ReportData;
  reportHistory : option (list HistoryItem);
  theme : option jsstring
}.

Inductive Entry :=
| REPORT_DATA (d : ReportData)
| REPORT_HISTORY (h : list HistoryItem)
| THEME (v : jsstring).

Inductive Exception := QuotaExceededError | OtherError.

Definition put (e : Entry) (ls : LocalStorage) : LocalStorage :=
  match e with
  | REPORT_DATA d => mkLocalStorage (Some d) (reportHistory ls) (theme ls)
  | REPORT_HISTORY h => mkLocalStorage (reportData ls) (Some h) (theme ls)
  | THEME v => mkLocalStorage (reportData ls) (reportHistory ls) (Some v)
  end.

Record t := mk {
  isAvailable : bool;
  localStorage : LocalStorage
}.

Section Medium.

(** The storage medium decides whether a write is accepted: [medium ls e]
    is the exception [localStorage.setItem] raises when [e] is written to a
    storage holding [ls], or [None] when the write goes through. *)
Variable medium : LocalStorage -> Entry -> option Exception.

Definition setItem (e : Entry) (ls : LocalStorage) : Exception + LocalStorage :=
  match medium ls e with
  | Some ex => inl ex
  | None => inr (put e ls)
  end.

Definition loadHistory (sm : t) : list HistoryItem :=
  if negb (isAvailable sm) then []
  else default [] (reportHistory (localStorage sm)).

Definition handleQuotaExceeded (sm : t) : t :=
  let history := loadHistory sm in
  if (5 <? length history)%nat then
    let history := take (length history / 2)%nat history in
    match setItem (REPORT_HISTORY history) (localStorage sm) with
    | inr ls => mk (isAvailable sm) ls
    | inl _ => sm
    end
  else sm.

Definition saveReportData (d : ReportData) (sm : t) : bool * t :=
  if negb (isAvailable sm) then (false, sm)
  else
    match setItem (REPORT_DATA d) (localStorage sm) with
    | inr ls => (true, mk (isAvailable sm) ls)
    | inl QuotaExceededError => (false, handleQuotaExceeded sm)
    | inl OtherError => (false, sm)
    end.

Definition loadReportData (sm : t) : option ReportData :=
  if negb (isAvailable sm) then None
  else reportData (localStorage sm).

(** The guard "Don't save empty reports":
    [!data.workBom && !data.projectName &&
     (!data.tasks || data.tasks.length === 0 || !data.tasks[0].detail)]. *)
Definition emptyReport (d : ReportData) : bool :=
  negb (truthyProp (workBom d)) && negb (truthyProp (projectName d))
  && match tasks d with
     | None => true
     | Some ts =>
       (length ts =? 0)%nat
       || match ts !! 0%nat with
          | Some task => negb (truthy (detail task))
          | None => true   (* not reached: the array is not empty *)
          end
     end.

(** [now] is the text of [new Date().toLocaleString('th-TH')];
    [structuredClone] copies a value that the model already treats as a
    value. *)
Definition saveToHistory (d : ReportData) (now : jsstring) (sm : t) : bool * t :=
  if negb (isAvailable sm) then (false, sm)
  else if emptyReport d then (false, sm)
  else
    let history := loadHistory sm in
    let historyItem := {| timestamp := now; data := d |} in
    let history := historyItem :: history in
    let history :=
      if (MAX_HISTORY_ITEMS <? length history)%nat
      then take MAX_HISTORY_ITEMS history else history in
    match setItem (REPORT_HISTORY history) (localStorage sm) with
    | inr ls => (true, mk (isAvailable sm) ls)
    | inl QuotaExceededError => (false, handleQuotaExceeded sm)
    | inl OtherError => (false, sm)
    end.

Definition clearHistory (sm : t) : bool * t :=
  if negb (isAvailable sm) then (false, sm)
  else
    let ls := localStorage sm in
    (true, mk true (mkLocalStorage (reportData ls) None (theme ls))).

(** [localStorage.getItem(STORAGE_KEYS.THEME) || 'light'] *)
Definition getTheme (sm : t) : jsstring :=
  if negb (isAvailable sm) then lit "light"
  else match theme (localStorage sm) with
       | Some v => if truthy v then v else lit "light"
       | None => lit "light"
       end.

Definition saveTheme (v : jsstring) (sm : t) : bool * t :=
  if negb (isAvailable sm) then (false, sm)
  else
    match setItem (THEME v) (localStorage sm) with
    | inr ls => (true, mk (isAvailable sm) ls)
    | inl _ => (false, sm)
    end.

(** Removes the report data and the history; the theme key stays. *)
Definition clearAll (sm : t) : bool * t :=
  if negb (isAvailable sm) then (false, sm)
  else
    let ls := localStorage sm in
    let ls := mkLocalStorage None (reportHistory ls) (theme ls) in
    let ls := mkLocalStorage (reportData ls) None (theme ls) in
    (true, mk (isAvailable sm) ls).

End Medium.

End StorageManager.

(* ===================================================================== *)
(** * js/ReportManager.js *)
(* ===================================================================== *)

Module ReportManager.

(** [this.state]: the three scalar fields. *)
Module State.
Record t := mk {
  workBom : jsstring;
  projectName : jsstring;
  problems : jsstring
}.
End State.

Record t := mk {
  state : State.t;
  notifications : nat
}.

(** The managers are singletons of the page; a session is the three of them
    together. *)
Record Session := mkSession {
  reportManager : t;
  taskManager : TaskManager.t;
  storageManager : StorageManager.t
}.

(** The export and import envelope. *)
Record ImportData := mkImportData {
  version : option jsstring;
  exportDate : option jsstring;
  data : option ReportData
}.

Definition empty : State.t := State.mk [] [] [].

Definition notifyListeners (rm : t) : t :=
  mk (state rm) (S (notifications rm)).

Definition withReport (rm : t) (s : Session) : Session :=
  mkSession rm (taskManager s) (storageManager s).

Definition withTasks (tm : TaskManager.t) (s : Session) : Session :=
  mkSession (reportManager s) tm (storageManager s).

Definition withStorage (sm : StorageManager.t) (s : Session) : Session :=
  mkSession (reportManager s) (taskManager s) sm.

Definition setStateField (st : State.t) (s : Session) : Session :=
  withReport (mk st (notifications (reportManager s))) s.

(** [{...this.state, tasks: taskManager.getTasks()}]. The scalar fields are
    copied; [tasks] is the live task array itself, so the snapshot stands
    for the state only until the next edit of that array, unless it is
    copied (as [saveToHistory] does). *)
Definition getState (s : Session) : ReportData :=
  let st := state (reportManager s) in
  {| workBom := Some (State.workBom st);
     projectName := Some (State.projectName st);
     problems := Some (State.problems st);
     tasks := Some (TaskManager.getTasks (taskManager s)) |}.

(** ** Report text *)

Definition separator : jsstring := lit "------------------------------".

(** [array.forEach((x, index) => ...)] with the state the callback updates. *)
Fixpoint forEach {A St : Type} (f : St -> A -> nat -> St) (l : list A)
  (index : nat) (acc : St) : St :=
  match l with
  | [] => acc
  | x :: l' => forEach f l' (S index) (f acc x index)
  end.

(** The callback of the task loop; it updates [parts] and [hasTasks]. *)
Definition taskCallback (acc : list jsstring * bool) (task : Task) (index : nat)
  : list jsstring * bool :=
  let '(parts, hasTasks) := acc in
  if truthy (detail task) then
    let taskNumber := (index + 1)%nat in
    let parts := parts ++ [numToString taskNumber ++ lit ". " ++ detail task] in
    let parts := parts ++ [lit "   🚦 Status: " ++ status task] in
    let parts :=
      if truthy (remark task) && negb (streq (remark task) (lit "-"))
      then parts ++ [lit "   💬 Remark: " ++ remark task]
      else parts in
    (parts, true)
  else (parts, hasTasks).

(** The array [parts] of [generateReport] just before it is joined;
    [dateStr] is the text of [formatDate(new Date())]. *)
Definition reportParts (dateStr : jsstring) (s : Session) : list jsstring :=
  let st := state (reportManager s) in
  let tasks := TaskManager.getTasks (taskManager s) in
  let parts := [lit "📅 รายงานวันที่: " ++ dateStr] in
  let parts :=
    if truthy (State.workBom st)
    then parts ++ [lit "🔖 Work BOM : " ++ State.workBom st] else parts in
  let parts :=
    if truthy (State.projectName st)
    then parts ++ [lit "🏷️ Project : " ++ State.projectName st] else parts in
  let parts :=
    if truthy (State.workBom st) || truthy (State.projectName st)
    then parts ++ [separator] else parts in
  let parts := parts ++ [lit "✅ **รายละเอียดงาน**"] in
  let parts :=
    if (0 <? length tasks)%nat then
      let '(parts, hasTasks) := forEach taskCallback tasks 0%nat (parts, false) in
      if negb hasTasks then parts ++ [lit "- ไม่มีรายการ -"] else parts
    else parts ++ [lit "- ไม่มีรายการ -"] in
  let parts :=
    if truthy (State.problems st)
    then parts ++ [separator; lit "📌 **ปัญหา**"; State.problems st]
    else parts in
  parts.

Definition generateReport (dateStr : jsstring) (s : Session) : jsstring :=
  trim (join [0x0A] (reportParts dateStr s)).

(** ** Persistence, history, import *)

Section Medium.

Variable medium :
  StorageManager.LocalStorage -> StorageManager.Entry ->
  option StorageManager.Exception.

Definition save (s : Session) : Session :=
  let data := getState s in
  withStorage (StorageManager.saveReportData medium data (storageManager s)).2 s.

Definition setState (updates : State.t -> State.t) (s : Session) : Session :=
  let s := setStateField (updates (state (reportManager s))) s in
  let s := withReport (notifyListeners (reportManager s)) s in
  save s.

Definition saveToHistory (now : jsstring) (s : Session) : bool * Session :=
  let data := getState s in
  let '(ok, sm) := StorageManager.saveToHistory medium data now (storageManager s) in
  (ok, withStorage sm s).

Definition restoreFromHistory (historyData : ReportData) (s : Session) : Session :=
  let s :=
    setStateField
      (State.mk (orEmpty (workBom historyData))
                (orEmpty (projectName historyData))
                (orEmpty (problems historyData))) s in
  let s :=
    match tasks historyData with
    | Some ts =>
      if (0 <? length ts)%nat
      then withTasks (TaskManager.setTasks (Some ts) (taskManager s)) s
      else
        let tm := TaskManager.clearTasks (taskManager s) in
        withTasks (TaskManager.addTask TaskManager.noFields tm).2 s
    | None =>
      let tm := TaskManager.clearTasks (taskManager s) in
      withTasks (TaskManager.addTask TaskManager.noFields tm).2 s
    end in
  let s := withReport (notifyListeners (reportManager s)) s in
  save s.

Definition clearTasks (s : Session) : Session :=
  let st := state (reportManager s) in
  let s := setStateField (State.mk (State.workBom st) (State.projectName st) []) s in
  let tm := TaskManager.clearTasks (taskManager s) in
  let s := withTasks (TaskManager.addTask TaskManager.noFields tm).2 s in
  let s := withReport (notifyListeners (reportManager s)) s in
  save s.

Definition resetAll (s : Session) : Session :=
  let s := setStateField empty s in
  let tm := TaskManager.clearTasks (taskManager s) in
  let s := withTasks (TaskManager.addTask TaskManager.noFields tm).2 s in
  let s := withReport (notifyListeners (reportManager s)) s in
  save s.


(** The body of [import] runs in a [try]; the only exception is the one it
    throws itself when [importData.data] is missing. *)
Definition import (importData : ImportData) (s : Session) : bool * Session :=
  match data importData with
  | None => (false, s)
  | Some data =>
    let s :=
      setStateField
        (State.mk (orEmpty (workBom data))
                  (orEmpty (projectName data))
                  (orEmpty (problems data))) s in
    let s :=
      match tasks data with
      | Some ts => withTasks (TaskManager.setTasks (Some ts) (taskManager s)) s
      | None => s
      end in
    let s := withReport (notifyListeners (reportManager s)) s in
    (true, save s)
  end.

End Medium.

(** ** Validation and loading *)

Definition validate (s : Session) : Validation.t :=
  let st := state (reportManager s) in
  let errors := [] in
  let errors :=
    if truthy (State.workBom st) && negb (Utils.validateWorkBom (State.workBom st))
    then errors ++ [Error.mk None (lit "workBom")
                      (lit "รูปแบบ Work BOM ไม่ถูกต้อง (ตัวอย่าง: WB-S2407-0105-A)")]
    else errors in
  let errors :=
    if truthy (State.projectName st)
       && negb (Utils.validateProjectName (State.projectName st))
    then errors ++ [Error.mk None (lit "projectName")
                      (lit "ชื่อโปรเจกต์ต้องมีความยาว 3-200 ตัวอักษร")]
    else errors in
  let taskValidation := TaskManager.validate (taskManager s) in
  let errors :=
    if negb (Validation.valid taskValidation)
    then errors ++ Validation.errors taskValidation
    else errors in
  {| Validation.valid := (length errors =? 0)%nat; Validation.errors := errors |}.

(** [load] reads the stored draft; it does not write. *)
Definition load (s : Session) : bool * Session :=
  match StorageManager.loadReportData (storageManager s) with
  | Some data =>
    let s :=
      setStateField
        (State.mk (orEmpty (workBom data))
                  (orEmpty (projectName data))
                  (orEmpty (problems data))) s in
    let s :=
      match tasks data with
      | Some ts =>
        if (0 <? length ts)%nat
        then withTasks (TaskManager.setTasks (Some ts) (taskManager s)) s
        else withTasks (TaskManager.addTask TaskManager.noFields (taskManager s)).2 s
      | None =>
        withTasks (TaskManager.addTask TaskManager.noFields (taskManager s)).2 s
      end in
    let s := withReport (notifyListeners (reportManager s)) s in
    (true, s)
  | None =>
    (false, withTasks (TaskManager.addTask TaskManager.noFields (taskManager s)).2 s)
  end.

End ReportManager.

(* ===================================================================== *)
(** * js/UIManager.js: the theme *)
(* ===================================================================== *)

Module UIManager.

(** The [data-theme] attribute of the document element; [None] when the
    attribute is not set. *)
Record t := mk {
  dataTheme : option jsstring
}.

Definition updateTheme (theme : jsstring) (ui : t) : t :=
  mk (Some theme).

Definition toggleTheme (ui : t) : jsstring * t :=
  let current := dataTheme ui in
  let newTheme :=
    match current with
    | Some c => if streq c (lit "light") then lit "dark" else lit "light"
    | None => lit "light"
    end in
  (newTheme, updateTheme newTheme ui).

End UIManager.

(* ===================================================================== *)
(** * js/app.js: the handlers that work on the managers *)
(* ===================================================================== *)

Module App.

Section Medium.

Variable medium :
  StorageManager.LocalStorage -> StorageManager.Entry ->
  option StorageManager.Exception.

(** [handleCopy] as far as the managers go: the validation gate, the history
    entry and the report text. [None] is the early return on invalid input;
    the messages shown next to the fields, the toast, the output field and
    the clipboard are page effects outside the managers. [now] and [dateStr]
    are the texts of the two dates the call takes. *)
Definition handleCopy (now dateStr : jsstring) (s : ReportManager.Session)
  : option jsstring * ReportManager.Session :=
  let validation := ReportManager.validate s in
  if negb (Validation.valid validation) then (None, s)
  else
    let s := (ReportManager.saveToHistory medium now s).2 in
    let reportText := ReportManager.generateReport dateStr s in
    (Some reportText, s).

Definition handleThemeToggle (ui : UIManager.t) (sm : StorageManager.t)
  : UIManager.t * StorageManager.t :=
  let '(newTheme, ui) := UIManager.toggleTheme ui in
  (ui, (StorageManager.saveTheme medium newTheme sm).2).

End Medium.

End App.

(* ===================================================================== *)
(** * Notions used in the statements *)
(* ===================================================================== *)

(** [l'] is [l] with the elements at positions [i] and [j] exchanged. *)
Definition exchanged (i j : nat) (l l' : list Task) : Prop :=
  length l' = length l
  ∧ l' !! i = l !! j
  ∧ l' !! j = l !! i
  ∧ ∀ k, k ≠ i → k ≠ j → l' !! k = l !! k.

(** A snapshot is semantically empty when it has no BOM, no project and no
    task with a non-empty detail. *)
Definition semanticallyEmpty (d : ReportData) : bool :=
  negb (truthyProp (workBom d)) && negb (truthyProp (projectName d))
  && forallb (fun task => negb (truthy (detail task))) (default [] (tasks d)).

Definition newItem (now : jsstring) (d : ReportData) : HistoryItem :=
  {| timestamp := now; data := d |}.

(** The lines of one task that carries the number [taskNumber]. *)
Definition taskLines (taskNumber : nat) (task : Task) : list jsstring :=
  [numToString taskNumber ++ lit ". " ++ detail task;
   lit "   🚦 Status: " ++ status task]
  ++ (if truthy (remark task) && negb (streq (remark task) (lit "-"))
      then [lit "   💬 Remark: " ++ remark task] else []).

Definition included (it : nat * Task) : Prop := truthy (detail it.2) = true.

(** The tasks with a non-empty detail, each with its position in the whole
    list, counted from [offset + 1]. *)
Definition numberedFrom (offset : nat) (tasks : list Task) : list (nat * Task) :=
  filter included (imap (fun i task => (S (offset + i), task)) tasks).

Definition numberedByPosition (tasks : list Task) : list (nat * Task) :=
  numberedFrom 0 tasks.

(** Numbering over the included tasks only: the tasks with a non-empty
    detail, numbered 1, 2, 3, ... among themselves. *)
Definition numberedConsecutively (tasks : list Task) : list (nat * Task) :=
  imap (fun i task => (S i, task))
       (filter (fun task => truthy (detail task) = true) tasks).

Definition taskSection (numbered : list (nat * Task)) : list jsstring :=
  match numbered with
  | [] => [lit "- ไม่มีรายการ -"]
  | _ => numbered ≫= (fun it => taskLines it.1 it.2)
  end.

Definition headerParts (dateStr : jsstring) (st : ReportManager.State.t)
  : list jsstring :=
  [lit "📅 รายงานวันที่: " ++ dateStr]
  ++ (if truthy (ReportManager.State.workBom st)
      then [lit "🔖 Work BOM : " ++ ReportManager.State.workBom st] else [])
  ++ (if truthy (ReportManager.State.projectName st)
      then [lit "🏷️ Project : " ++ ReportManager.State.projectName st] else [])
  ++ (if truthy (ReportManager.State.workBom st)
         || truthy (ReportManager.State.projectName st)
      then [ReportManager.separator] else [])
  ++ [lit "✅ **รายละเอียดงาน**"].

Definition problemParts (st : ReportManager.State.t) : list jsstring :=
  if truthy (ReportManager.State.problems st)
  then [ReportManager.separator; lit "📌 **ปัญหา**"; ReportManager.State.problems st]
  else [].

Definition nonEmpty {A} (l : list A) : bool :=
  match l with [] => false | _ :: _ => true end.

Definition isLetter (c : char16) : Prop :=
  0x41 <= c <= 0x5A ∨ 0x61 <= c <= 0x7A.

Definition isDigit (c : char16) : Prop := 0x30 <= c <= 0x39.

(** "WB-", one letter, four digits, "-", four digits, "-", one letter, in
    either case. *)
Definition WorkBomFormat (s : jsstring) : Prop :=
  ∃ w b l1 d1 d2 d3 d4 d5 d6 d7 d8 l2,
    s = [w; b; 0x2D; l1; d1; d2; d3; d4; 0x2D; d5; d6; d7; d8; 0x2D; l2]
    ∧ (w = 0x57 ∨ w = 0x77) ∧ (b = 0x42 ∨ b = 0x62)
    ∧ isLetter l1 ∧ isLetter l2
    ∧ Forall isDigit [d1; d2; d3; d4; d5; d6; d7; d8].

Definition allWhiteSpace (s : jsstring) : Prop :=
  Forall (fun c => isWhiteSpace c = true) s.

(** The classes a pattern asks for, one per character. *)
Definition expandTerm (t : Term) : list CharClass :=
  match t with
  | Atom cl => [cl]
  | Repeat cl n => replicate n cl
  end.

Definition expand (pattern : list Term) : list CharClass :=
  pattern ≫= expandTerm.

(** A character is in a class, under the given case flag. *)
Definition matchesClass (ic : bool) (cl : CharClass) (c : char16) : Prop :=
  classMatches ic cl c = true.

(** A task within the limits that [validate] checks. *)
Definition withinLimits (task : Task) : Prop :=
  (length (detail task) ≤ 500)%nat ∧ (length (remark task) ≤ 200)%nat.

(** An error of [TaskManager.validate] points at a task of the list that
    breaks the limit of the field it names. *)
Definition taskErrorOf (tasks : list Task) (e : Error.t) : Prop :=
  ∃ i task,
    Error.index e = Some i ∧ tasks !! i = Some task
    ∧ ((Error.field e = lit "detail" ∧ (500 < length (detail task))%nat)
       ∨ (Error.field e = lit "remark" ∧ (200 < length (remark task))%nat)).

(** The sum of the six status counters of a summary. *)
Definition counted (sm : TaskManager.Summary) : nat :=
  (TaskManager.ok sm + TaskManager.ng sm + TaskManager.pending sm
   + TaskManager.inProgress sm + TaskManager.waiting sm + TaskManager.other sm)%nat.

(** A call of one of the list operations of the task manager, and a run of
    such calls in order, with the outcome of each call ([addTask] always
    takes place). *)
Inductive TaskOp :=
| OpAdd (task : TaskManager.Partial)
| OpUpdate (index : Z) (updates : TaskManager.Partial)
| OpRemove (index : Z)
| OpMoveUp (index : Z)
| OpMoveDown (index : Z).

Definition callOp (op : TaskOp) (tm : TaskManager.t) : bool * TaskManager.t :=
  match op with
  | OpAdd task => (true, (TaskManager.addTask task tm).2)
  | OpUpdate index updates => TaskManager.updateTask index updates tm
  | OpRemove index => TaskManager.removeTask index tm
  | OpMoveUp index => TaskManager.moveTaskUp index tm
  | OpMoveDown index => TaskManager.moveTaskDown index tm
  end.

Fixpoint runOps (ops : list TaskOp) (tm : TaskManager.t)
  : list (TaskOp * bool) * TaskManager.t :=
  match ops with
  | [] => ([], tm)
  | op :: ops' =>
    let '(ok, tm1) := callOp op tm in
    let '(log, tm2) := runOps ops' tm1 in
    ((op, ok) :: log, tm2)
  end.

Definition isAdd (entry : TaskOp * bool) : bool :=
  match entry with (OpAdd _, _) => true | _ => false end.

Definition isRemoval (entry : TaskOp * bool) : bool :=
  match entry with (OpRemove _, true) => true | _ => false end.

Definition tookPlace (entry : TaskOp * bool) : bool := entry.2.

Definition count {A} (f : A → bool) (l : list A) : nat :=
  length (List.filter f l).

(* ===================================================================== *)
(** * Sample data *)
(* ===================================================================== *)

Definition tA := mkTask (lit "A") (lit "OK") [].
Definition tB := mkTask (lit "B") (lit "NG") (lit "urgent").
Definition tC := mkTask (lit "C") (lit "OK") [].

(** A medium that accepts every write. *)
Definition unlimited (ls : StorageManager.LocalStorage) (e : StorageManager.Entry)
  : option StorageManager.Exception := None.

Definition emptyStorage : StorageManager.t :=
  StorageManager.mk true (StorageManager.mkLocalStorage None None None).

Definition blankTask : Task := mkTask [] (lit "OK") [].

Definition sampleSession : ReportManager.Session :=
  ReportManager.mkSession
    (ReportManager.mk
       (ReportManager.State.mk (lit "WB-S2407-0105-A") (lit "Line 3") (lit "none")) 0)
    (TaskManager.mk [tA; tB] 0)
    emptyStorage.

Definition envelopeWithoutData : ReportManager.ImportData :=
  ReportManager.mkImportData (Some (lit "1.0")) (Some (lit "2025-12-01T00:00:00.000Z")) None.

Definition noTaskData : ReportData :=
  mkReportData (Some (lit "WB-S2407-0105-A")) (Some (lit "Line 3")) (Some []) (Some []).

Definition envelopeNoTasks : ReportManager.ImportData :=
  ReportManager.mkImportData (Some (lit "1.0")) (Some (lit "2025-12-01T00:00:00.000Z"))
    (Some noTaskData).

(** A medium that holds at most [n] history items: a longer history is
    refused with [QuotaExceededError]. *)
Definition capped (n : nat) (ls : StorageManager.LocalStorage)
    (e : StorageManager.Entry) : option StorageManager.Exception :=
  match e with
  | StorageManager.REPORT_HISTORY h =>
    if (n <? length h)%nat then Some StorageManager.QuotaExceededError else None
  | _ => None
  end.

Definition sampleData : ReportData :=
  mkReportData (Some (lit "WB-S2407-0105-A")) (Some (lit "Line 3")) (Some [])
    (Some [tA; tB]).

(** [k] history items, the newest first; the timestamp of an item is its
    number, [k] for the newest and [1] for the oldest. *)
Definition historyOf (k : nat) : list HistoryItem :=
  (fun i => mkHistoryItem (numToString i) sampleData) <$> rev (seq 1 k).

Definition storageWith (h : list HistoryItem) : StorageManager.t :=
  StorageManager.mk true (StorageManager.mkLocalStorage None (Some h) None).

(** No BOM, no project, a blank first task and a second task with a detail. *)
Definition laterDetail : ReportData :=
  mkReportData (Some []) (Some []) (Some [])
    (Some [blankTask; mkTask (lit "Fix bug") (lit "OK") []]).

Definition sessionWith (ts : list Task) : ReportManager.Session :=
  ReportManager.mkSession
    (ReportManager.mk (ReportManager.State.mk [] [] []) 0)
    (TaskManager.mk ts 0) emptyStorage.

(* ===================================================================== *)
(** * Task list: reordering *)
(* ===================================================================== *)

Section Reorder.

Import TaskManager.

Lemma swap_exchanged i j l :
  (i < length l)%nat → (j < length l)%nat →
  ∃ l', swap i j l = Some l' ∧ exchanged i j l l'.
Proof.
  intros Hi Hj. unfold swap.
  destruct (lookup_lt_is_Some_2 l i Hi) as [x Hx].
  destruct (lookup_lt_is_Some_2 l j Hj) as [y Hy].
  rewrite Hx, Hy. eexists; split; [reflexivity|].
  repeat split.
  - by rewrite !length_insert.
  - destruct (decide (i = j)) as [->|Hne].
    + rewrite list_lookup_insert_eq by (by rewrite length_insert). congruence.
    + rewrite list_lookup_insert_ne by done.
      by rewrite list_lookup_insert_eq.
  - rewrite list_lookup_insert_eq by (by rewrite length_insert). done.
  - intros k Hki Hkj. by rewrite !list_lookup_insert_ne.
Qed.

Lemma moveTaskUp_boundary (index : Z) (tm : t) :
  (index <= 0 ∨ Z.of_nat (length (tasks tm)) <= index)%Z →
  moveTaskUp index tm = (false, tm).
Proof.
  intros H. unfold moveTaskUp.
  destruct (index <=? 0)%Z eqn:E1; [done|].
  destruct (Z.of_nat (length (tasks tm)) <=? index)%Z eqn:E2; [done|].
  lia.
Qed.

Lemma moveTaskDown_boundary (index : Z) (tm : t) :
  (index < 0 ∨ Z.of_nat (length (tasks tm)) - 1 <= index)%Z →
  moveTaskDown index tm = (false, tm).
Proof.
  intros H. unfold moveTaskDown.
  destruct (index <? 0)%Z eqn:E1; [done|].
  destruct (Z.of_nat (length (tasks tm)) - 1 <=? index)%Z eqn:E2; [done|].
  lia.
Qed.

Lemma moveTaskUp_inside (index : Z) (tm : t) :
  (0 < index < Z.of_nat (length (tasks tm)))%Z →
  ∃ l', moveTaskUp index tm = (true, mk l' (S (notifications tm)))
        ∧ exchanged (Z.to_nat index - 1) (Z.to_nat index) (tasks tm) l'.
Proof.
  intros H. unfold moveTaskUp.
  destruct (index <=? 0)%Z eqn:E1; [lia|].
  destruct (Z.of_nat (length (tasks tm)) <=? index)%Z eqn:E2; [lia|].
  cbn [orb].
  destruct (swap_exchanged (Z.to_nat index - 1) (Z.to_nat index) (tasks tm))
    as (l' & Hs & Hex); [lia | lia |].
  rewrite Hs. by exists l'.
Qed.

Lemma moveTaskDown_inside (index : Z) (tm : t) :
  (0 <= index < Z.of_nat (length (tasks tm)) - 1)%Z →
  ∃ l', moveTaskDown index tm = (true, mk l' (S (notifications tm)))
        ∧ exchanged (Z.to_nat index) (Z.to_nat index + 1) (tasks tm) l'.
Proof.
  intros H. unfold moveTaskDown.
  destruct (index <? 0)%Z eqn:E1; [lia|].
  destruct (Z.of_nat (length (tasks tm)) - 1 <=? index)%Z eqn:E2; [lia|].
  cbn [orb].
  destruct (swap_exchanged (Z.to_nat index) (Z.to_nat index + 1) (tasks tm))
    as (l' & Hs & Hex); [lia | lia |].
  rewrite Hs. by exists l'.
Qed.

(** C5. [moveTaskUp index] exchanges the record at [index] with its
    predecessor and returns [true] when [0 < index < length]; it returns
    [false] and leaves the manager as it was when [index <= 0] or
    [index >= length]. [moveTaskDown index] exchanges the record with its
    successor when [0 <= index < length - 1], and returns [false] with the
    manager unchanged when [index < 0] or [index >= length - 1]. *)
Theorem moveTask_adjacent_transposition (tm : t) (index : Z) :
  let n := Z.of_nat (length (tasks tm)) in
  ((0 < index < n)%Z →
     ∃ l', moveTaskUp index tm = (true, mk l' (S (notifications tm)))
           ∧ exchanged (Z.to_nat index - 1) (Z.to_nat index) (tasks tm) l')
  ∧ ((index <= 0 ∨ n <= index)%Z → moveTaskUp index tm = (false, tm))
  ∧ ((0 <= index < n - 1)%Z →
     ∃ l', moveTaskDown index tm = (true, mk l' (S (notifications tm)))
           ∧ exchanged (Z.to_nat index) (Z.to_nat index + 1) (tasks tm) l')
  ∧ ((index < 0 ∨ n - 1 <= index)%Z → moveTaskDown index tm = (false, tm)).
Proof.
  cbv zeta. split; [apply moveTaskUp_inside|].
  split; [apply moveTaskUp_boundary|].
  split; [apply moveTaskDown_inside | apply moveTaskDown_boundary].
Qed.

End Reorder.

(** C5 on the list A, B, C: moving up at 1 and down at 1 exchange
    neighbours, moving up at 0 and down at 2 change nothing. *)
Lemma moveTask_adjacent_transposition_witness :
  TaskManager.moveTaskUp 1 (TaskManager.mk [tA; tB; tC] 0)
    = (true, TaskManager.mk [tB; tA; tC] 1)
  ∧ TaskManager.moveTaskUp 0 (TaskManager.mk [tA; tB; tC] 0)
    = (false, TaskManager.mk [tA; tB; tC] 0)
  ∧ TaskManager.moveTaskDown 1 (TaskManager.mk [tA; tB; tC] 0)
    = (true, TaskManager.mk [tA; tC; tB] 1)
  ∧ TaskManager.moveTaskDown 2 (TaskManager.mk [tA; tB; tC] 0)
    = (false, TaskManager.mk [tA; tB; tC] 0).
Proof.
  pose proof (moveTask_adjacent_transposition (TaskManager.mk [tA; tB; tC] 0)) as H.
  split; [|split; [|split]].
  - destruct (H 1%Z) as [Hup _].
    destruct Hup as (l' & Heq & _); [simpl; lia|].
    etransitivity; [exact Heq|].
    vm_compute in Heq. injection Heq as <-. reflexivity.
  - destruct (H 0%Z) as (_ & Hb & _). apply Hb. left. lia.
  - destruct (H 1%Z) as (_ & _ & Hdown & _).
    destruct Hdown as (l' & Heq & _); [simpl; lia|].
    etransitivity; [exact Heq|].
    vm_compute in Heq. injection Heq as <-. reflexivity.
  - destruct (H 2%Z) as (_ & _ & _ & Hb). apply Hb. right. simpl. lia.
Defined.

(* ===================================================================== *)
(** * Report state: restore and import *)
(* ===================================================================== *)

Section RestoreImport.

Import ReportManager.

Variable medium :
  StorageManager.LocalStorage -> StorageManager.Entry ->
  option StorageManager.Exception.

Lemma orEmpty_Some (x : jsstring) : orEmpty (Some x) = x.
Proof. by destruct x. Qed.

Lemma restoreFromHistory_state (h : ReportData) (s : Session) :
  state (reportManager (restoreFromHistory medium h s))
  = State.mk (orEmpty (workBom h)) (orEmpty (projectName h)) (orEmpty (problems h)).
Proof.
  unfold restoreFromHistory.
  destruct (tasks h) as [ts|]; [destruct (0 <? length ts)%nat|]; reflexivity.
Qed.

Lemma restoreFromHistory_tasks (h : ReportData) (s : Session) (ts : list Task) :
  tasks h = Some ts → ts ≠ [] →
  TaskManager.tasks (taskManager (restoreFromHistory medium h s)) = ts.
Proof.
  intros Hts Hne. unfold restoreFromHistory. rewrite Hts.
  destruct ts as [|x l]; [done|]. reflexivity.
Qed.

(** C7. Restoring from the snapshot that [getState] builds gives back the
    scalar fields [workBom], [projectName] and [problems] and the task array
    in its order, whenever the task list is not empty. *)
Theorem restoreFromHistory_getState_roundtrip (s : Session) :
  TaskManager.tasks (taskManager s) ≠ [] →
  let s' := restoreFromHistory medium (getState s) s in
  state (reportManager s') = state (reportManager s)
  ∧ TaskManager.tasks (taskManager s') = TaskManager.tasks (taskManager s)
  ∧ getState s' = getState s.
Proof.
  intros Hne s'.
  assert (Hst : state (reportManager s') = state (reportManager s)).
  { subst s'. rewrite restoreFromHistory_state. unfold getState.
    cbn [workBom projectName problems]. rewrite !orEmpty_Some.
    by destruct (state (reportManager s)). }
  assert (Hts : TaskManager.tasks (taskManager s')
                = TaskManager.tasks (taskManager s)).
  { subst s'. by apply restoreFromHistory_tasks. }
  split; [done|]. split; [done|].
  unfold getState, TaskManager.getTasks. by rewrite Hst, Hts.
Qed.

(** C8. An import whose envelope has no [data] returns [false] and leaves
    the scalar fields, the task list and the storage as they were. *)
Theorem import_without_data_leaves_state (importData : ImportData) (s : Session) :
  data importData = None →
  import medium importData s = (false, s).
Proof. intros H. unfold import. by rewrite H. Qed.

(** C9. An import whose [data] is present and whose [data.tasks] is the
    empty array returns [true] and leaves the live task list with no task,
    whereas a history restore of the same data puts one blank task in the
    list. *)
Theorem import_empty_tasks_leaves_no_task (importData : ImportData)
    (d : ReportData) (s : Session) :
  data importData = Some d →
  tasks d = Some [] →
  (import medium importData s).1 = true
  ∧ TaskManager.tasks (taskManager (import medium importData s).2) = []
  ∧ TaskManager.tasks (taskManager (restoreFromHistory medium d s)) = [blankTask].
Proof.
  intros Hd Hts. unfold import, restoreFromHistory. rewrite Hd, Hts.
  repeat split.
Qed.

End RestoreImport.

(** C7 on a session with two tasks. *)
Lemma restoreFromHistory_getState_roundtrip_witness :
  TaskManager.tasks (ReportManager.taskManager sampleSession) ≠ []
  ∧ ReportManager.getState
      (ReportManager.restoreFromHistory unlimited
         (ReportManager.getState sampleSession) sampleSession)
    = ReportManager.getState sampleSession.
Proof.
  assert (H : TaskManager.tasks (ReportManager.taskManager sampleSession) ≠ [])
    by (simpl; discriminate).
  split; [exact H|].
  exact (proj2 (proj2 (restoreFromHistory_getState_roundtrip unlimited sampleSession H))).
Defined.

(** C8 on an envelope that has a version and a date but no data. *)
Lemma import_without_data_leaves_state_witness :
  ReportManager.data envelopeWithoutData = None
  ∧ ReportManager.import unlimited envelopeWithoutData sampleSession
    = (false, sampleSession).
Proof.
  split; [reflexivity|].
  apply (import_without_data_leaves_state unlimited envelopeWithoutData sampleSession).
  reflexivity.
Defined.

(** C9 on an envelope whose data has an empty task array. *)
Lemma import_empty_tasks_leaves_no_task_witness :
  (ReportManager.import unlimited envelopeNoTasks sampleSession).1 = true
  ∧ TaskManager.tasks
      (ReportManager.taskManager
         (ReportManager.import unlimited envelopeNoTasks sampleSession).2) = []
  ∧ TaskManager.tasks
      (ReportManager.taskManager
         (ReportManager.restoreFromHistory unlimited noTaskData sampleSession))
    = [blankTask].
Proof.
  apply (import_empty_tasks_leaves_no_task unlimited envelopeNoTasks noTaskData
           sampleSession); reflexivity.
Defined.

(* ===================================================================== *)
(** * History *)
(* ===================================================================== *)

Section History.

Import StorageManager.

Variable medium : LocalStorage -> Entry -> option Exception.

Lemma saveToHistory_write (d : ReportData) (now : jsstring) (sm : t) :
  isAvailable sm = true → emptyReport d = false →
  saveToHistory medium d now sm =
    match medium (localStorage sm)
            (REPORT_HISTORY (take MAX_HISTORY_ITEMS (newItem now d :: loadHistory sm))) with
    | None =>
      (true, mk true (put (REPORT_HISTORY
                             (take MAX_HISTORY_ITEMS (newItem now d :: loadHistory sm)))
                          (localStorage sm)))
    | Some QuotaExceededError => (false, handleQuotaExceeded medium sm)
    | Some OtherError => (false, sm)
    end.
Proof.
  intros Hav Hne. unfold saveToHistory, setItem. rewrite Hav, Hne. cbn [negb].
  fold (newItem now d).
  assert (Hcut :
    (if (MAX_HISTORY_ITEMS <? length (newItem now d :: loadHistory sm))%nat
     then take MAX_HISTORY_ITEMS (newItem now d :: loadHistory sm)
     else newItem now d :: loadHistory sm)
    = take MAX_HISTORY_ITEMS (newItem now d :: loadHistory sm)).
  { destruct (MAX_HISTORY_ITEMS <? length _)%nat eqn:E; [done|].
    apply Nat.ltb_ge in E. by rewrite take_ge. }
  rewrite Hcut.
  destruct (medium _ _) as [[]|]; reflexivity.
Qed.

Lemma loadHistory_put (h : list HistoryItem) (ls : LocalStorage) :
  loadHistory (mk true (put (REPORT_HISTORY h) ls)) = h.
Proof. reflexivity. Qed.

Lemma handleQuotaExceeded_small (sm : t) :
  (length (loadHistory sm) ≤ 5)%nat → handleQuotaExceeded medium sm = sm.
Proof.
  intros H. unfold handleQuotaExceeded.
  destruct (5 <? length (loadHistory sm))%nat eqn:E; [|done].
  apply Nat.ltb_lt in E. lia.
Qed.

Lemma handleQuotaExceeded_large (sm : t) :
  isAvailable sm = true →
  (5 < length (loadHistory sm))%nat →
  handleQuotaExceeded medium sm =
    let kept := take (length (loadHistory sm) / 2)%nat (loadHistory sm) in
    match medium (localStorage sm) (REPORT_HISTORY kept) with
    | None => mk true (put (REPORT_HISTORY kept) (localStorage sm))
    | Some _ => sm
    end.
Proof.
  intros Hav H. unfold handleQuotaExceeded, setItem.
  apply Nat.ltb_lt in H. rewrite H, Hav. cbv zeta.
  by destruct (medium _ _).
Qed.

Lemma handleQuotaExceeded_length (sm : t) :
  (length (loadHistory (handleQuotaExceeded medium sm)) ≤ length (loadHistory sm))%nat.
Proof.
  unfold handleQuotaExceeded.
  destruct (5 <? length (loadHistory sm))%nat; [|done].
  unfold setItem. destruct (medium _ _); [done|].
  unfold loadHistory at 1. cbn [isAvailable localStorage].
  destruct (isAvailable sm); cbn [negb]; [|simpl; lia].
  cbn [put reportHistory default from_option id]. rewrite length_take. lia.
Qed.

(** The part of C2 that holds: a semantically empty snapshot is refused. *)
Lemma semanticallyEmpty_emptyReport (d : ReportData) :
  semanticallyEmpty d = true → emptyReport d = true.
Proof.
  unfold semanticallyEmpty, emptyReport.
  destruct (negb (truthyProp (workBom d))); [|done].
  destruct (negb (truthyProp (projectName d))); [|done].
  cbn [andb]. destruct (tasks d) as [[|task l]|]; [done| |done].
  cbn. by intros ->%andb_prop%proj1.
Qed.

Lemma saveToHistory_refuses_empty (d : ReportData) (now : jsstring) (sm : t) :
  semanticallyEmpty d = true → saveToHistory medium d now sm = (false, sm).
Proof.
  intros H%semanticallyEmpty_emptyReport. unfold saveToHistory.
  rewrite H. by destruct (isAvailable sm).
Qed.

(** C2 (the code departs from the claim). The guard of [saveToHistory]
    looks at the first task only: the snapshot [laterDetail], which has no
    BOM, no project, a blank first task and a second task with detail
    "Fix bug", is not semantically empty, yet it is refused with no write. *)
Theorem saveToHistory_refuses_later_detail (now : jsstring) (sm : t) :
  semanticallyEmpty laterDetail = false
  ∧ saveToHistory medium laterDetail now sm = (false, sm).
Proof.
  split; [by vm_compute|].
  unfold saveToHistory. by destruct (isAvailable sm).
Qed.

(** C3 (amended). When the write of the new history raises
    [QuotaExceededError], [saveToHistory] returns [false] and does not write
    the new entry again. If the stored history has more than 5 entries it is
    cut to the first half of its length (rounded down), which keeps the most
    recent entries, provided that this shorter write is accepted; if the
    stored history has 5 entries or fewer, or the shorter write is refused
    as well, the storage is left as it was. *)
Theorem quota_exceeded_evicts_without_retry (d : ReportData) (now : jsstring) (sm : t) :
  isAvailable sm = true → emptyReport d = false →
  medium (localStorage sm)
    (REPORT_HISTORY (take MAX_HISTORY_ITEMS (newItem now d :: loadHistory sm)))
  = Some QuotaExceededError →
  let h := loadHistory sm in
  let kept := take (length h / 2)%nat h in
  let r := saveToHistory medium d now sm in
  r.1 = false
  ∧ ((length h ≤ 5)%nat → r.2 = sm)
  ∧ ((5 < length h)%nat →
     medium (localStorage sm) (REPORT_HISTORY kept) = None →
     r.2 = mk true (put (REPORT_HISTORY kept) (localStorage sm))
     ∧ loadHistory r.2 = kept
     ∧ length (loadHistory r.2) = (length h / 2)%nat)
  ∧ ((5 < length h)%nat →
     medium (localStorage sm) (REPORT_HISTORY kept) ≠ None → r.2 = sm).
Proof.
  intros Hav Hne Hq h kept r. subst r.
  rewrite saveToHistory_write by done. rewrite Hq. cbn [fst snd].
  split; [done|].
  split; [intros Hs; by apply handleQuotaExceeded_small|].
  split.
  - intros Hlen Hok. rewrite (handleQuotaExceeded_large sm Hav Hlen).
    cbv zeta. fold h. fold kept. rewrite Hok.
    split; [done|]. rewrite loadHistory_put. split; [done|].
    subst kept. rewrite length_take.
    pose proof (Nat.Div0.div_le_upper_bound (length h) 2 (length h)). lia.
  - intros Hlen Hko. rewrite (handleQuotaExceeded_large sm Hav Hlen).
    cbv zeta. fold h. fold kept.
    destruct (medium (localStorage sm) (REPORT_HISTORY kept)); [done|congruence].
Qed.

(** Appends that pass the guard of [saveToHistory] and are written: on a
    stored history of 20 entries the new entry is at index 0, followed by
    the 19 most recent old entries, and the oldest entry is gone. After a
    successful append the history never has more than 20 entries, and no
    call makes a history of at most 20 entries longer than 20. *)
Theorem history_capped_at_20 (d : ReportData) (now : jsstring) (sm : t) :
  let h := loadHistory sm in
  let r := saveToHistory medium d now sm in
  (isAvailable sm = true → emptyReport d = false →
   medium (localStorage sm)
     (REPORT_HISTORY (take MAX_HISTORY_ITEMS (newItem now d :: h))) = None →
   length h = 20%nat →
   r.1 = true
   ∧ length (loadHistory r.2) = 20%nat
   ∧ loadHistory r.2 !! 0%nat = Some (newItem now d)
   ∧ loadHistory r.2 = newItem now d :: take 19 h
   ∧ h = take 19 h ++ drop 19 h ∧ length (drop 19 h) = 1%nat)
  ∧ (r.1 = true →
     (length (loadHistory r.2) ≤ 20)%nat
     ∧ loadHistory r.2 !! 0%nat = Some (newItem now d))
  ∧ ((length h ≤ 20)%nat → (length (loadHistory r.2) ≤ 20)%nat).
Proof.
  intros h r. split; [|split].
  - intros Hav Hne Hok Hlen. subst r.
    rewrite saveToHistory_write by done. fold h. rewrite Hok. cbn [fst snd].
    rewrite loadHistory_put. change MAX_HISTORY_ITEMS with 20%nat.
    cbn [take]. rewrite length_cons, length_take, length_drop, take_drop.
    repeat split; lia.
  - subst r. unfold saveToHistory.
    destruct (isAvailable sm) eqn:Hav; cbn [negb]; [|done].
    destruct (emptyReport d); [done|]. unfold setItem.
    destruct (medium _ _) as [[]|]; [done|done|]. intros _. cbn [snd].
    rewrite loadHistory_put. fold (newItem now d). fold h.
    change MAX_HISTORY_ITEMS with 20%nat.
    destruct (20 <? length (newItem now d :: h))%nat eqn:E.
    + cbn [take]. rewrite length_cons, length_take. split; [lia|done].
    + apply Nat.ltb_ge in E. split; [exact E|done].
  - intros Hlen. subst r. unfold saveToHistory.
    destruct (isAvailable sm) eqn:Hav; cbn [negb]; [|done].
    destruct (emptyReport d); [done|]. unfold setItem.
    destruct (medium _ _) as [[]|]; cbn [snd].
    + pose proof (handleQuotaExceeded_length sm). fold h in H. lia.
    + done.
    + rewrite loadHistory_put. fold (newItem now d). fold h.
      change MAX_HISTORY_ITEMS with 20%nat.
      destruct (20 <? length (newItem now d :: h))%nat eqn:E.
      * cbn [take]. rewrite length_cons, length_take. lia.
      * by apply Nat.ltb_ge in E.
Qed.

End History.

(** C4 (the code departs from the claim). On a stored history of 20 entries,
    appending the snapshot [laterDetail], which is not semantically empty,
    does not take place, whatever the storage accepts: the call returns
    [false] and leaves the storage as it was, so the history keeps its 20
    old entries, the oldest included, and the new entry is not at index 0.
    The guard that looks at the first task only refuses the snapshot before
    the history is read (the defect of C2). *)
Theorem history_cap_refuses_later_detail
    (medium : StorageManager.LocalStorage → StorageManager.Entry →
              option StorageManager.Exception) (now : jsstring) :
  let sm := storageWith (historyOf 20) in
  let r := StorageManager.saveToHistory medium laterDetail now sm in
  semanticallyEmpty laterDetail = false
  ∧ length (StorageManager.loadHistory sm) = 20%nat
  ∧ r = (false, sm)
  ∧ StorageManager.loadHistory r.2 = historyOf 20
  ∧ StorageManager.loadHistory r.2 !! 0%nat
    = Some (mkHistoryItem (numToString 20) sampleData)
  ∧ StorageManager.loadHistory r.2 !! 0%nat ≠ Some (newItem now laterDetail)
  ∧ last (StorageManager.loadHistory r.2)
    = Some (mkHistoryItem (numToString 1) sampleData).
Proof.
  cbv zeta.
  assert (Hr : StorageManager.saveToHistory medium laterDetail now
                 (storageWith (historyOf 20))
               = (false, storageWith (historyOf 20))) by reflexivity.
  rewrite Hr. cbn [snd].
  split; [by vm_compute|]. split; [by vm_compute|]. split; [done|].
  split; [reflexivity|]. split; [by vm_compute|]. split; [|by vm_compute].
  intros H.
  assert (Hd : data <$> (StorageManager.loadHistory (storageWith (historyOf 20)) !! 0%nat)
               = Some laterDetail) by (by rewrite H).
  vm_compute in Hd. discriminate Hd.
Qed.

(** C3 (as stated, refuted). The medium holds at most 10 history items and
    the stored history has 10. The write of 11 items raises
    [QuotaExceededError]; the history is cut to its 5 most recent items, and
    that is all: the call returns [false] and the new item is not in the
    storage, although the medium would take it now. *)
Lemma quota_retry_counterexample :
  let sm := storageWith (historyOf 10) in
  let item := newItem (lit "now") sampleData in
  let r := StorageManager.saveToHistory (capped 10) sampleData (lit "now") sm in
  length (StorageManager.loadHistory sm) = 10%nat
  ∧ capped 10 (StorageManager.localStorage sm)
      (StorageManager.REPORT_HISTORY (item :: StorageManager.loadHistory sm))
    = Some StorageManager.QuotaExceededError
  ∧ r.1 = false
  ∧ StorageManager.loadHistory r.2 = take 5 (historyOf 10)
  ∧ (item ∉ StorageManager.loadHistory r.2)
  ∧ capped 10 (StorageManager.localStorage r.2)
      (StorageManager.REPORT_HISTORY (item :: StorageManager.loadHistory r.2))
    = None.
Proof.
  cbv zeta. split; [reflexivity|]. split; [reflexivity|].
  split; [by vm_compute|]. split; [by vm_compute|]. split; [|by vm_compute].
  intros Hin. apply list_elem_of_fmap_2 with (f := timestamp) in Hin.
  vm_compute in Hin. apply list_elem_of_In in Hin. simpl in Hin.
  intuition discriminate.
Qed.

(** C3 (amended) on a stored history of 10 items and a medium that holds
    at most 10: the history is cut to 5 items and the call returns [false]. *)
Lemma quota_exceeded_evicts_without_retry_witness :
  let sm := storageWith (historyOf 10) in
  let r := StorageManager.saveToHistory (capped 10) sampleData (lit "now") sm in
  r.1 = false
  ∧ StorageManager.loadHistory r.2 = take 5 (historyOf 10)
  ∧ length (StorageManager.loadHistory r.2) = 5%nat.
Proof.
  cbv zeta.
  destruct (quota_exceeded_evicts_without_retry (capped 10) sampleData (lit "now")
              (storageWith (historyOf 10)))
    as (H1 & _ & H3 & _); [reflexivity | by vm_compute | by vm_compute |].
  destruct H3 as (_ & H4 & H5); [vm_compute; lia | by vm_compute |].
  split; [exact H1|]. split; [exact H4 | exact H5].
Defined.

(** The cap on a stored history of 20 items and a snapshot that passes the
    guard. *)
Lemma history_capped_at_20_witness :
  let sm := storageWith (historyOf 20) in
  let r := StorageManager.saveToHistory unlimited sampleData (lit "now") sm in
  r.1 = true
  ∧ length (StorageManager.loadHistory r.2) = 20%nat
  ∧ StorageManager.loadHistory r.2 !! 0%nat = Some (newItem (lit "now") sampleData)
  ∧ StorageManager.loadHistory r.2
    = newItem (lit "now") sampleData :: take 19 (historyOf 20).
Proof.
  cbv zeta.
  destruct (history_capped_at_20 unlimited sampleData (lit "now")
              (storageWith (historyOf 20))) as (H & _ & _).
  destruct H as (H1 & H2 & H3 & H4 & _);
    [reflexivity | by vm_compute | reflexivity | by vm_compute |].
  split; [exact H1|]. split; [exact H2|]. split; [exact H3 | exact H4].
Defined.

(* ===================================================================== *)
(** * Report text: the numbered task lines *)
(* ===================================================================== *)

Section Numbering.

Import ReportManager.

Lemma numberedFrom_cons offset task l :
  numberedFrom offset (task :: l)
  = (if truthy (detail task) then [(S offset, task)] else [])
    ++ numberedFrom (S offset) l.
Proof.
  unfold numberedFrom. rewrite imap_cons, filter_cons.
  rewrite Nat.add_0_r.
  assert (Hext : imap ((fun i t => (S (offset + i), t)) ∘ S) l
                 = imap (fun i t => (S (S offset + i), t)) l).
  { apply imap_ext. intros i x _. cbn. f_equal. lia. }
  rewrite Hext. unfold included at 1. cbn [snd].
  case_decide as Hd.
  - by rewrite Hd.
  - by destruct (truthy (detail task)).
Qed.

Lemma forEach_taskCallback (l : list Task) :
  ∀ (index : nat) (parts : list jsstring) (hasTasks : bool),
    forEach taskCallback l index (parts, hasTasks)
    = (parts ++ (numberedFrom index l ≫= (fun it => taskLines it.1 it.2)),
       hasTasks || nonEmpty (numberedFrom index l)).
Proof.
  induction l as [|task l IH]; intros index parts hasTasks.
  - cbn. by rewrite app_nil_r, orb_false_r.
  - cbn [forEach]. rewrite numberedFrom_cons.
    unfold taskCallback at 2.
    destruct (truthy (detail task)) eqn:Ht.
    + rewrite IH. cbn [app mbind list_bind nonEmpty fst snd].
      rewrite orb_true_r. f_equal.
      unfold taskLines. rewrite Nat.add_1_r.
      destruct (truthy (remark task) && negb (streq (remark task) (lit "-")));
        cbn [app]; by rewrite <- !app_assoc.
    + rewrite IH. reflexivity.
Qed.

Lemma numberedByPosition_spec (tasks : list Task) (n : nat) (task : Task) :
  (n, task) ∈ numberedByPosition tasks
  ↔ ∃ i, n = S i ∧ tasks !! i = Some task ∧ truthy (detail task) = true.
Proof.
  unfold numberedByPosition, numberedFrom.
  rewrite list_elem_of_filter, list_elem_of_lookup. unfold included. cbn [snd].
  setoid_rewrite list_lookup_imap. split.
  - intros [Ht [i Hi]]. exists i.
    destruct (tasks !! i) as [x|] eqn:E; [|done].
    cbn in Hi. by simplify_eq.
  - intros (i & -> & Hi & Ht). split; [done|]. exists i. by rewrite Hi.
Qed.

(** C1 (amended). The numbered task lines of the report are those of the
    tasks with a non-empty detail, in order; the number of a task is its
    position in the whole task list, counted from 1, so a task that comes
    after tasks with an empty detail keeps the number of its row. When no
    task has a non-empty detail the line "- ไม่มีรายการ -" stands in their
    place. *)
Theorem generateReport_numbers_by_position (dateStr : jsstring) (s : Session) :
  let st := state (reportManager s) in
  let tasks := TaskManager.tasks (taskManager s) in
  reportParts dateStr s
  = headerParts dateStr st ++ taskSection (numberedByPosition tasks)
    ++ problemParts st
  ∧ generateReport dateStr s
    = trim (join [0x0A] (headerParts dateStr st
                         ++ taskSection (numberedByPosition tasks)
                         ++ problemParts st))
  ∧ (∀ n task, (n, task) ∈ numberedByPosition tasks
       ↔ ∃ i, n = S i ∧ tasks !! i = Some task ∧ truthy (detail task) = true).
Proof.
  intros st tasks.
  cut (reportParts dateStr s
       = headerParts dateStr st ++ taskSection (numberedByPosition tasks)
         ++ problemParts st).
  { intros Hparts. split; [exact Hparts|].
    split; [unfold generateReport; by rewrite Hparts|].
    apply numberedByPosition_spec. }
  unfold reportParts, TaskManager.getTasks. fold st. fold tasks.
  set (header := headerParts dateStr st).
  assert (Hh :
    (let parts := [lit "📅 รายงานวันที่: " ++ dateStr] in
     let parts := if truthy (State.workBom st)
       then parts ++ [lit "🔖 Work BOM : " ++ State.workBom st] else parts in
     let parts := if truthy (State.projectName st)
       then parts ++ [lit "🏷️ Project : " ++ State.projectName st] else parts in
     let parts := if truthy (State.workBom st) || truthy (State.projectName st)
       then parts ++ [separator] else parts in
     parts ++ [lit "✅ **รายละเอียดงาน**"]) = header).
  { subst header. unfold headerParts.
    destruct (truthy (State.workBom st)), (truthy (State.projectName st));
      reflexivity. }
  cbv zeta in Hh. cbv zeta. rewrite Hh. clear Hh.
  rewrite forEach_taskCallback. fold (numberedByPosition tasks).
  cbn [orb]. unfold problemParts. clearbody tasks.
  assert (Htasks : ∀ T : list jsstring,
    T = (if (0 <? length tasks)%nat
         then if negb (nonEmpty (numberedByPosition tasks))
              then (header ++ (numberedByPosition tasks
                                 ≫= (fun it => taskLines it.1 it.2)))
                   ++ [lit "- ไม่มีรายการ -"]
              else header ++ (numberedByPosition tasks
                                ≫= (fun it => taskLines it.1 it.2))
         else header ++ [lit "- ไม่มีรายการ -"])
    → T = header ++ taskSection (numberedByPosition tasks)).
  { intros T ->. destruct tasks as [|task l]; [reflexivity|].
    cbn [length Nat.ltb Nat.leb].
    destruct (numberedByPosition (task :: l)) as [|it rest]; [|reflexivity].
    cbn. by rewrite app_nil_r. }
  destruct (truthy (State.problems st)).
  - rewrite app_assoc. f_equal. by apply Htasks.
  - rewrite app_nil_r. by apply Htasks.
Qed.

End Numbering.

(** C1 (as stated, refuted). With a blank first task and a second task "A",
    the report numbers the only task line 2, whereas numbering the included
    tasks among themselves would number it 1. *)
Lemma consecutive_numbering_counterexample :
  let s := sessionWith [blankTask; tA] in
  let st := ReportManager.state (ReportManager.reportManager s) in
  ReportManager.generateReport (lit "1 ธันวาคม 2568") s
  = join [0x0A] [lit "📅 รายงานวันที่: 1 ธันวาคม 2568"; lit "✅ **รายละเอียดงาน**";
                 lit "2. A"; lit "   🚦 Status: OK"]
  ∧ numberedConsecutively [blankTask; tA] = [(1%nat, tA)]
  ∧ ReportManager.reportParts (lit "1 ธันวาคม 2568") s
    ≠ headerParts (lit "1 ธันวาคม 2568") st
      ++ taskSection (numberedConsecutively [blankTask; tA])
      ++ problemParts st.
Proof.
  cbv zeta. split; [by vm_compute|]. split; [by vm_compute|].
  intros H. vm_compute in H. discriminate H.
Qed.

(* ===================================================================== *)
(** * Validation *)
(* ===================================================================== *)

Section Trim.

Lemma trimStart_allWhiteSpace (ws s : jsstring) :
  allWhiteSpace ws → trimStart (ws ++ s) = trimStart s.
Proof.
  induction 1 as [|c ws Hc _ IH]; [done|].
  cbn [app trimStart]. by rewrite Hc.
Qed.

Lemma trimStart_nil (s : jsstring) : trimStart s = [] ↔ allWhiteSpace s.
Proof.
  induction s as [|c s IH]; [by split; [constructor|]|].
  cbn [trimStart]. destruct (isWhiteSpace c) eqn:E.
  - rewrite IH. split; [by constructor|]. by inversion 1.
  - split; [done|]. inversion 1. congruence.
Qed.

Lemma trimStart_app (s t : jsstring) :
  trimStart s ≠ [] → trimStart (s ++ t) = trimStart s ++ t.
Proof.
  induction s as [|c s IH]; [done|].
  cbn [app trimStart]. destruct (isWhiteSpace c); [exact IH|done].
Qed.

Lemma trimEnd_allWhiteSpace (s ws : jsstring) :
  allWhiteSpace ws → trimEnd (s ++ ws) = trimEnd s.
Proof.
  intros H. unfold trimEnd. rewrite rev_app_distr.
  rewrite trimStart_allWhiteSpace; [done|].
  by apply List.Forall_rev.
Qed.

Lemma trim_nil (s : jsstring) : allWhiteSpace s → trim s = [].
Proof. intros H. unfold trim. by rewrite (proj2 (trimStart_nil s) H). Qed.

Lemma trim_surrounded (ws1 v ws2 : jsstring) :
  allWhiteSpace ws1 → allWhiteSpace ws2 → trim (ws1 ++ v ++ ws2) = trim v.
Proof.
  intros H1 H2. unfold trim. rewrite trimStart_allWhiteSpace by done.
  destruct (trimStart v) as [|c r] eqn:E.
  - apply trimStart_nil in E.
    assert (Hall : allWhiteSpace (v ++ ws2)) by (by apply Forall_app).
    apply trimStart_nil in Hall. by rewrite Hall.
  - rewrite trimStart_app by congruence. rewrite E.
    by apply trimEnd_allWhiteSpace.
Qed.

End Trim.

Section Regex.

Variable ic : bool.

Lemma matchRepeat_spec (cl : CharClass) (n : nat) :
  ∀ s r, matchRepeat ic cl n s = Some r
         ↔ ∃ p, Forall2 (matchesClass ic) (replicate n cl) p ∧ s = p ++ r.
Proof.
  induction n as [|n IH]; intros s r; cbn [matchRepeat replicate].
  - split.
    + intros [= ->]. exists []. by split; [constructor|].
    + intros (p & Hp & ->). apply Forall2_nil_inv_l in Hp. by subst.
  - destruct s as [|c s].
    + split; [done|]. intros (p & Hp & Heq).
      apply Forall2_cons_inv_l in Hp as (y & k & _ & _ & ->). done.
    + destruct (classMatches ic cl c) eqn:E.
      * rewrite IH. split.
        -- intros (p & Hp & ->). exists (c :: p). by split; [constructor|].
        -- intros (p & Hp & Heq).
           apply Forall2_cons_inv_l in Hp as (y & k & _ & Hk & ->).
           injection Heq as -> ->. by exists k.
      * split; [done|]. intros (p & Hp & Heq).
        apply Forall2_cons_inv_l in Hp as (y & k & Hy & _ & ->).
        injection Heq as -> _. unfold matchesClass in Hy. congruence.
Qed.

Lemma matchTerm_spec (t : Term) (s r : jsstring) :
  matchTerm ic t s = Some r ↔ ∃ p, Forall2 (matchesClass ic) (expandTerm t) p ∧ s = p ++ r.
Proof. destruct t; apply matchRepeat_spec. Qed.

(** The matcher accepts exactly the strings that have one character in each
    class of the pattern, in order. *)
Lemma test_spec (pattern : list Term) :
  ∀ s, test ic pattern s = true ↔ Forall2 (matchesClass ic) (expand pattern) s.
Proof.
  induction pattern as [|t pattern IH]; intros s.
  - cbn. destruct s.
    + split; [constructor | done].
    + split; [done | inversion 1].
  - cbn [test]. unfold expand. rewrite bind_cons. fold (expand pattern).
    rewrite Forall2_app_inv_l. split.
    + destruct (matchTerm ic t s) as [r|] eqn:E; [|done].
      intros Hr. apply matchTerm_spec in E as (p & Hp & ->).
      exists p, r. by rewrite <- IH.
    + intros (p & r & Hp & Hr & ->).
      assert (E : matchTerm ic t (p ++ r) = Some r)
        by (apply matchTerm_spec; by exists p).
      rewrite E. by apply IH.
Qed.

End Regex.

Section Classes.

Ltac class_cases :=
  unfold classMatches, inClass, toUpperAscii, toLowerAscii, isLetter, isDigit;
  repeat match goal with
         | |- context [if ?b then _ else _] => destruct b eqn:?
         end;
  rewrite ?orb_true_iff, ?andb_true_iff, ?N.leb_le, ?N.eqb_eq;
  repeat match goal with
         | H : _ && _ = true |- _ => apply andb_true_iff in H; destruct H
         | H : _ && _ = false |- _ => apply andb_false_iff in H; destruct H
         | H : (_ <=? _) = true |- _ => apply N.leb_le in H
         | H : (_ <=? _) = false |- _ => apply N.leb_gt in H
         end;
  lia.

Lemma classMatches_letter (c : char16) :
  classMatches true (Range 0x41 0x5A) c = true ↔ isLetter c.
Proof. class_cases. Qed.

Lemma classMatches_digit (c : char16) :
  classMatches true Digit c = true ↔ isDigit c.
Proof. class_cases. Qed.

Lemma classMatches_W (c : char16) :
  classMatches true (Lit 0x57) c = true ↔ c = 0x57 ∨ c = 0x77.
Proof. class_cases. Qed.

Lemma classMatches_B (c : char16) :
  classMatches true (Lit 0x42) c = true ↔ c = 0x42 ∨ c = 0x62.
Proof. class_cases. Qed.

Lemma classMatches_dash (c : char16) :
  classMatches true (Lit 0x2D) c = true ↔ c = 0x2D.
Proof. class_cases. Qed.

End Classes.

Section Validation.

Import Utils.

Lemma validateWorkBom_trim (v : jsstring) :
  validateWorkBom v = streq (trim v) [] || test true pattern (trim v).
Proof.
  unfold validateWorkBom. destruct v as [|c v]; [reflexivity|].
  cbn [truthy negb orb]. by destruct (streq (trim (c :: v)) []).
Qed.

Lemma validateProjectName_trim (v : jsstring) :
  validateProjectName v
  = streq (trim v) []
    || (3 <=? length (trim v))%nat && (length (trim v) <=? 200)%nat.
Proof.
  unfold validateProjectName. destruct v as [|c v]; [reflexivity|].
  cbn [truthy negb orb]. by destruct (streq (trim (c :: v)) []).
Qed.

Lemma streq_nil (s : jsstring) : streq s [] = true ↔ s = [].
Proof. unfold streq. apply bool_decide_eq_true. Qed.

Lemma test_pattern_format (s : jsstring) :
  test true pattern s = true ↔ WorkBomFormat s.
Proof.
  rewrite test_spec.
  change (expand pattern) with
    [Lit 0x57; Lit 0x42; Lit 0x2D; Range 0x41 0x5A; Digit; Digit; Digit; Digit;
     Lit 0x2D; Digit; Digit; Digit; Digit; Lit 0x2D; Range 0x41 0x5A].
  split.
  - intros H.
    repeat (apply Forall2_cons_inv_l in H as (? & ? & ? & H & ->)).
    apply Forall2_nil_inv_l in H as ->. unfold matchesClass in *.
    repeat match goal with
           | H : classMatches true (Lit 0x57) _ = true |- _ => apply classMatches_W in H
           | H : classMatches true (Lit 0x42) _ = true |- _ => apply classMatches_B in H
           | H : classMatches true (Lit 0x2D) _ = true |- _ => apply classMatches_dash in H
           | H : classMatches true (Range _ _) _ = true |- _ => apply classMatches_letter in H
           | H : classMatches true Digit _ = true |- _ => apply classMatches_digit in H
           end.
    subst. unfold WorkBomFormat. do 12 eexists.
    split; [reflexivity|]. repeat split; try assumption.
    repeat (constructor; [assumption|]). constructor.
  - intros (w & b & l1 & d1 & d2 & d3 & d4 & d5 & d6 & d7 & d8 & l2
            & -> & Hw & Hb & Hl1 & Hl2 & Hd).
    repeat match goal with
           | H : Forall _ (_ :: _) |- _ => apply Forall_cons_1 in H; destruct H
           end.
    repeat (apply Forall2_cons; split); unfold matchesClass;
      [ by apply classMatches_W | by apply classMatches_B
      | by apply classMatches_dash | by apply classMatches_letter
      | by apply classMatches_digit | by apply classMatches_digit
      | by apply classMatches_digit | by apply classMatches_digit
      | by apply classMatches_dash
      | by apply classMatches_digit | by apply classMatches_digit
      | by apply classMatches_digit | by apply classMatches_digit
      | by apply classMatches_dash | by apply classMatches_letter
      | constructor ].
Qed.

(** C6 (amended). [validateWorkBom] accepts exactly the strings that, once
    trimmed, are empty or have the form "WB-", a letter, four digits, "-",
    four digits, "-", a letter, in either case. "WB-S2407-0105-A" passes,
    "WB-24-0105-A" fails, and the empty string passes. *)
Theorem validateWorkBom_accepts_trimmed_format :
  (∀ v, validateWorkBom v = true ↔ trim v = [] ∨ WorkBomFormat (trim v))
  ∧ validateWorkBom (lit "WB-S2407-0105-A") = true
  ∧ validateWorkBom (lit "WB-24-0105-A") = false
  ∧ validateWorkBom [] = true.
Proof.
  split; [|by vm_compute].
  intros v. rewrite validateWorkBom_trim, orb_true_iff.
  by rewrite streq_nil, test_pattern_format.
Qed.

(** C10. Validation of the Work BOM and of the project name works on the
    trimmed input: a value made of whitespace only is valid, whitespace
    around a value does not change the verdict, and the bounds 3 and 200 of
    the project name apply to the length of the trimmed value. *)
Theorem validation_trims_input (ws1 v ws2 : jsstring) :
  allWhiteSpace ws1 → allWhiteSpace ws2 →
  validateWorkBom ws1 = true
  ∧ validateProjectName ws1 = true
  ∧ validateWorkBom (ws1 ++ v ++ ws2) = validateWorkBom v
  ∧ validateProjectName (ws1 ++ v ++ ws2) = validateProjectName v
  ∧ (validateProjectName v = true
     ↔ trim v = [] ∨ (3 ≤ length (trim v) ≤ 200)%nat).
Proof.
  intros H1 H2.
  rewrite !validateWorkBom_trim, !validateProjectName_trim.
  rewrite trim_surrounded by done. rewrite trim_nil by done.
  repeat split; try reflexivity.
  - rewrite orb_true_iff, streq_nil, andb_true_iff, !Nat.leb_le. tauto.
  - rewrite orb_true_iff, streq_nil, andb_true_iff, !Nat.leb_le. tauto.
Qed.

End Validation.

(** C6 (as stated, refuted). A single space is accepted although it is not
    the empty string and does not match the pattern; so is a well-formed
    Work BOM with a space in front, which the anchored pattern rejects. *)
Lemma validateWorkBom_exactness_counterexample :
  Utils.validateWorkBom (lit " ") = true
  ∧ lit " " ≠ []
  ∧ test true Utils.pattern (lit " ") = false
  ∧ Utils.validateWorkBom (lit " WB-S2407-0105-A") = true
  ∧ test true Utils.pattern (lit " WB-S2407-0105-A") = false
  ∧ ¬ (∀ v, Utils.validateWorkBom v = true ↔ v = [] ∨ WorkBomFormat v).
Proof.
  split; [by vm_compute|]. split; [by vm_compute|]. split; [by vm_compute|].
  split; [by vm_compute|]. split; [by vm_compute|].
  intros H. destruct (proj1 (H (lit " "))) as [Hnil|Hfmt]; [by vm_compute| |].
  - vm_compute in Hnil. discriminate Hnil.
  - apply test_pattern_format in Hfmt. vm_compute in Hfmt. discriminate Hfmt.
Qed.

(** C10 on three spaces, and on values between three spaces and a tab
    followed by a line feed. *)
Lemma validation_trims_input_witness :
  Utils.validateWorkBom (lit "   ") = true
  ∧ Utils.validateProjectName (lit "   ") = true
  ∧ Utils.validateWorkBom (lit "   " ++ lit "WB-S2407-0105-A" ++ [0x09; 0x0A])
    = Utils.validateWorkBom (lit "WB-S2407-0105-A")
  ∧ Utils.validateProjectName (lit "   " ++ lit "ab" ++ [0x09; 0x0A])
    = Utils.validateProjectName (lit "ab").
Proof.
  assert (H1 : allWhiteSpace (lit "   ")) by (repeat constructor).
  assert (H2 : allWhiteSpace [0x09; 0x0A]) by (repeat constructor).
  destruct (validation_trims_input (lit "   ") (lit "WB-S2407-0105-A") [0x09; 0x0A] H1 H2)
    as (Ha & Hb & Hc & _).
  destruct (validation_trims_input (lit "   ") (lit "ab") [0x09; 0x0A] H1 H2)
    as (_ & _ & _ & Hd & _).
  split; [exact Ha|]. split; [exact Hb|]. split; [exact Hc | exact Hd].
Defined.

(* ===================================================================== *)
(** * Task list: add, update, remove, and moves undone *)
(* ===================================================================== *)

Section TaskList.

Import TaskManager.

(** X1. [addTask] puts the new record at the tail and returns its index, the
    old length; the records before it stay, and the listeners are notified
    once. The new record never has an empty status: a missing or empty
    status becomes "OK", a given one is kept. *)
Theorem addTask_appends_at_tail (task : Partial) (tm : t) :
  let r := addTask task tm in
  r.1 = length (tasks tm)
  ∧ length (tasks r.2) = S (length (tasks tm))
  ∧ (∀ i, (i < length (tasks tm))%nat → tasks r.2 !! i = tasks tm !! i)
  ∧ notifications r.2 = S (notifications tm)
  ∧ ∃ newTask,
      tasks r.2 !! r.1 = Some newTask
      ∧ detail newTask = default [] (p_detail task)
      ∧ remark newTask = default [] (p_remark task)
      ∧ status newTask ≠ []
      ∧ (∀ v, p_status task = Some v → v ≠ [] → status newTask = v)
      ∧ (p_status task = None ∨ p_status task = Some [] →
         status newTask = lit "OK").
Proof.
  cbv zeta. unfold addTask. cbn [fst snd tasks notifications notifyListeners].
  rewrite length_app. cbn [length].
  split; [lia|]. split; [lia|].
  split; [intros i Hi; by rewrite lookup_app_l|]. split; [done|].
  eexists. split.
  { replace (length (tasks tm) + 1 - 1)%nat with (length (tasks tm) + 0)%nat by lia.
    by rewrite lookup_app_r, Nat.add_0_r, Nat.sub_diag by lia. }
  cbn [detail remark status].
  split; [by destruct (p_detail task) as [[|]|]|].
  split; [by destruct (p_remark task) as [[|]|]|].
  split.
  { destruct (p_status task) as [[|c v]|]; cbn; by vm_compute. }
  split.
  - intros v -> Hv. by destruct v.
  - intros [-> | ->]; reflexivity.
Qed.

Lemma outOfRange_false (index : Z) (tm : t) :
  (0 <= index < Z.of_nat (length (tasks tm)))%Z → outOfRange index tm = false.
Proof.
  intros H. unfold outOfRange.
  destruct (index <? 0)%Z eqn:E1; [lia|].
  destruct (Z.of_nat (length (tasks tm)) <=? index)%Z eqn:E2; [lia|done].
Qed.

Lemma outOfRange_true (index : Z) (tm : t) :
  (index < 0 ∨ Z.of_nat (length (tasks tm)) <= index)%Z → outOfRange index tm = true.
Proof.
  intros H. unfold outOfRange.
  destruct (index <? 0)%Z eqn:E1; [done|].
  destruct (Z.of_nat (length (tasks tm)) <=? index)%Z eqn:E2; [done|lia].
Qed.


(** X3. [removeTask] inside the list returns [true] and deletes the record
    at [index]: the list is one shorter, the records before [index] stay in
    place and the later ones move one place to the front; outside the list
    it returns [false] and changes nothing. *)
Theorem removeTask_shifts_left (index : Z) (tm : t) :
  let r := removeTask index tm in
  let n := Z.of_nat (length (tasks tm)) in
  ((0 <= index < n)%Z →
     r.1 = true
     ∧ S (length (tasks r.2)) = length (tasks tm)
     ∧ notifications r.2 = S (notifications tm)
     ∧ (∀ k, (k < Z.to_nat index)%nat → tasks r.2 !! k = tasks tm !! k)
     ∧ (∀ k, (Z.to_nat index ≤ k)%nat → tasks r.2 !! k = tasks tm !! S k))
  ∧ ((index < 0 ∨ n <= index)%Z → r = (false, tm)).
Proof.
  cbv zeta. split.
  - intros H. unfold removeTask. rewrite outOfRange_false by done.
    cbn [fst snd tasks notifications notifyListeners].
    split; [done|]. split.
    { rewrite length_delete; [lia|]. apply lookup_lt_is_Some_2. lia. }
    split; [done|]. split.
    + intros k Hk. by apply list_lookup_delete_lt.
    + intros k Hk. by apply list_lookup_delete_ge.
  - intros H. unfold removeTask. by rewrite outOfRange_true.
Qed.

Lemma exchanged_back (i j : nat) (l l' l'' : list Task) :
  exchanged i j l l' → exchanged i j l' l'' → l'' = l.
Proof.
  intros (_ & Hi & Hj & Hk) (_ & Hi' & Hj' & Hk').
  apply list_eq. intros k.
  destruct (decide (k = i)) as [->|Hne1]; [congruence|].
  destruct (decide (k = j)) as [->|Hne2]; [congruence|].
  rewrite Hk' by done. by apply Hk.
Qed.

Lemma exchanged_unique (i j : nat) (l l1 l2 : list Task) :
  exchanged i j l l1 → exchanged i j l l2 → l1 = l2.
Proof.
  intros (_ & Hi & Hj & Hk) (_ & Hi' & Hj' & Hk').
  apply list_eq. intros k.
  destruct (decide (k = i)) as [->|Hne1]; [congruence|].
  destruct (decide (k = j)) as [->|Hne2]; [congruence|].
  rewrite Hk' by done. by apply Hk.
Qed.

(** X4. A move is undone by the opposite move of the record's new place:
    after [moveTaskUp index] the call [moveTaskDown (index - 1)] gives the
    original list back, and after [moveTaskDown index] the call
    [moveTaskUp (index + 1)] does. *)
Theorem move_undone_by_opposite_move (index : Z) (tm : t) :
  let n := Z.of_nat (length (tasks tm)) in
  ((0 < index < n)%Z →
     let r := moveTaskDown (index - 1) (moveTaskUp index tm).2 in
     r.1 = true ∧ tasks r.2 = tasks tm)
  ∧ ((0 <= index < n - 1)%Z →
     let r := moveTaskUp (index + 1) (moveTaskDown index tm).2 in
     r.1 = true ∧ tasks r.2 = tasks tm).
Proof.
  cbv zeta. split; intros H.
  - destruct (moveTaskUp_inside index tm H) as (l1 & E1 & X1).
    rewrite E1. cbn [snd].
    destruct (moveTaskDown_inside (index - 1) (mk l1 (S (notifications tm))))
      as (l2 & E2 & X2).
    { cbn [tasks]. destruct X1 as [-> _]. lia. }
    rewrite E2. cbn [fst snd tasks] in *. split; [done|].
    replace (Z.to_nat (index - 1)) with (Z.to_nat index - 1)%nat in X2 by lia.
    replace (Z.to_nat index - 1 + 1)%nat with (Z.to_nat index) in X2 by lia.
    by apply (exchanged_back _ _ _ _ _ X1 X2).
  - destruct (moveTaskDown_inside index tm H) as (l1 & E1 & X1).
    rewrite E1. cbn [snd].
    destruct (moveTaskUp_inside (index + 1) (mk l1 (S (notifications tm))))
      as (l2 & E2 & X2).
    { cbn [tasks]. destruct X1 as [-> _]. lia. }
    rewrite E2. cbn [fst snd tasks] in *. split; [done|].
    replace (Z.to_nat (index + 1) - 1)%nat with (Z.to_nat index) in X2 by lia.
    replace (Z.to_nat (index + 1)) with (Z.to_nat index + 1)%nat in X2 by lia.
    by apply (exchanged_back _ _ _ _ _ X1 X2).
Qed.

Lemma exchanged_adjacent (i : nat) (l l' : list Task) (a b : Task) :
  l !! i = Some a → l !! S i = Some b → exchanged i (S i) l l' →
  l' = take i l ++ b :: a :: drop (S (S i)) l.
Proof.
  intros Ha Hb (Hlen & Hi & Hj & Hk).
  assert (Hl : (S i < length l)%nat) by (by apply lookup_lt_Some in Hb).
  assert (Htake : length (take i l) = i) by (rewrite length_take; lia).
  apply list_eq. intros k.
  destruct (decide (k < i)%nat) as [Hlt|Hge].
  - rewrite lookup_app_l by lia. rewrite lookup_take_lt by done.
    apply Hk; lia.
  - rewrite lookup_app_r by lia. rewrite Htake.
    destruct (decide (k = i)) as [->|Hne1].
    { rewrite Nat.sub_diag. cbn. congruence. }
    destruct (decide (k = S i)) as [->|Hne2].
    { replace (S i - i)%nat with 1%nat by lia. cbn. congruence. }
    replace (k - i)%nat with (S (S (k - i - 2))) by lia.
    change (l' !! k = drop (S (S i)) l !! (k - i - 2)%nat).
    rewrite lookup_drop. rewrite Hk by done. f_equal. lia.
Qed.

(** X5. A move that takes place only reorders: the new list has the two
    neighbours in the opposite order between the same front and back parts,
    so it is a permutation of the old list. A move that does not take place
    leaves the list, so every call keeps the records and their number. *)
Theorem moves_permute_the_tasks (index : Z) (tm : t) :
  tasks (moveTaskUp index tm).2 ≡ₚ tasks tm
  ∧ tasks (moveTaskDown index tm).2 ≡ₚ tasks tm
  ∧ ((0 <= index < Z.of_nat (length (tasks tm)) - 1)%Z →
     ∃ a b, tasks tm !! Z.to_nat index = Some a
            ∧ tasks tm !! S (Z.to_nat index) = Some b
            ∧ tasks (moveTaskDown index tm).2
              = take (Z.to_nat index) (tasks tm)
                ++ b :: a :: drop (S (S (Z.to_nat index))) (tasks tm)
            ∧ tasks (moveTaskUp (index + 1) tm).2
              = tasks (moveTaskDown index tm).2).
Proof.
  assert (Hdown : ∀ idx, (0 <= idx < Z.of_nat (length (tasks tm)) - 1)%Z →
    ∃ a b, tasks tm !! Z.to_nat idx = Some a
           ∧ tasks tm !! S (Z.to_nat idx) = Some b
           ∧ tasks (moveTaskDown idx tm).2
             = take (Z.to_nat idx) (tasks tm)
               ++ b :: a :: drop (S (S (Z.to_nat idx))) (tasks tm)
           ∧ tasks (moveTaskUp (idx + 1) tm).2 = tasks (moveTaskDown idx tm).2).
  { intros idx H.
    destruct (lookup_lt_is_Some_2 (tasks tm) (Z.to_nat idx)) as [a Ha]; [lia|].
    destruct (lookup_lt_is_Some_2 (tasks tm) (S (Z.to_nat idx))) as [b Hb]; [lia|].
    exists a, b. split; [done|]. split; [done|].
    destruct (moveTaskDown_inside idx tm H) as (l1 & E1 & X1).
    destruct (moveTaskUp_inside (idx + 1) tm) as (l2 & E2 & X2); [lia|].
    rewrite E1, E2. cbn [snd tasks].
    replace (Z.to_nat idx + 1)%nat with (S (Z.to_nat idx)) in X1 by lia.
    replace (Z.to_nat (idx + 1) - 1)%nat with (Z.to_nat idx) in X2 by lia.
    replace (Z.to_nat (idx + 1)) with (S (Z.to_nat idx)) in X2 by lia.
    split; [by apply exchanged_adjacent|].
    by apply (exchanged_unique _ _ _ _ _ X2 X1). }
  assert (Hperm : ∀ idx, tasks (moveTaskDown idx tm).2 ≡ₚ tasks tm).
  { intros idx.
    destruct (decide (0 <= idx < Z.of_nat (length (tasks tm)) - 1)%Z) as [H|H].
    - destruct (Hdown idx H) as (a & b & Ha & Hb & -> & _).
      rewrite <- (take_drop_middle (tasks tm) (Z.to_nat idx) a Ha) at 3.
      rewrite (drop_S (tasks tm) b (S (Z.to_nat idx)) Hb).
      apply Permutation_app_head. apply perm_swap.
    - rewrite moveTaskDown_boundary by lia. done. }
  split; [|split; [apply Hperm | apply Hdown]].
  destruct (decide (0 < index < Z.of_nat (length (tasks tm)))%Z) as [H|H].
  - destruct (Hdown (index - 1)%Z) as (_ & _ & _ & _ & _ & Heq); [lia|].
    replace (index - 1 + 1)%Z with index in Heq by lia.
    rewrite Heq. apply Hperm.
  - rewrite moveTaskUp_boundary by lia. done.
Qed.

End TaskList.

(* ===================================================================== *)
(** * Task list: emptiness, validation, summary *)
(* ===================================================================== *)

Section TaskChecks.

Import TaskManager.

Lemma trimStart_head (s : jsstring) (c : char16) (r : jsstring) :
  trimStart s = c :: r → isWhiteSpace c = false.
Proof.
  induction s as [|x s IH]; [done|].
  cbn [trimStart]. destruct (isWhiteSpace x) eqn:E; [exact IH|].
  by intros [= <- _].
Qed.

Lemma trim_nil_inv (s : jsstring) : trim s = [] → allWhiteSpace s.
Proof.
  unfold trim, trimEnd. intros H.
  apply (f_equal (@rev char16)) in H. rewrite rev_involutive in H. cbn in H.
  apply trimStart_nil in H. apply List.Forall_rev in H.
  rewrite rev_involutive in H.
  destruct (trimStart s) as [|c r] eqn:E; [by apply trimStart_nil|].
  apply trimStart_head in E. inversion H. congruence.
Qed.

(** X6. [isEmpty] holds exactly when the detail of every task consists of
    whitespace only (in particular when there is no task). *)
Theorem isEmpty_iff_details_blank (tm : t) :
  isEmpty tm = true ↔ Forall (fun task => allWhiteSpace (detail task)) (tasks tm).
Proof.
  unfold isEmpty.
  assert (H : forallb (fun task => negb (truthy (trim (detail task)))) (tasks tm) = true
              ↔ Forall (fun task => allWhiteSpace (detail task)) (tasks tm)).
  { rewrite forallb_forall, Forall_forall.
    split; intros H task Hin.
    - apply list_elem_of_In in Hin. specialize (H task Hin).
      apply trim_nil_inv. by destruct (trim (detail task)).
    - apply list_elem_of_In in Hin. specialize (H task Hin).
      by rewrite (trim_nil _ H). }
  rewrite orb_true_iff, H. split; [|by right].
  intros [Hz|Hall]; [|done].
  apply Nat.eqb_eq in Hz. destruct (tasks tm); [constructor|done].
Qed.

Lemma overLimit (s : jsstring) (n : nat) :
  truthy s && (n <? length s)%nat = false ↔ (length s ≤ n)%nat.
Proof.
  destruct s as [|c s]; cbn [truthy andb].
  - split; [cbn; lia|done].
  - by rewrite Nat.ltb_ge.
Qed.

Lemma forEach_validateCallback (l : list Task) :
  ∀ (i : nat) (errs : list Error.t),
    ∃ ext,
      forEach validateCallback l i errs = errs ++ ext
      ∧ (ext = [] ↔ Forall withinLimits l)
      ∧ Forall (fun e => ∃ k task,
                  Error.index e = Some (i + k)%nat ∧ l !! k = Some task
                  ∧ ((Error.field e = lit "detail"
                      ∧ (500 < length (detail task))%nat)
                     ∨ (Error.field e = lit "remark"
                        ∧ (200 < length (remark task))%nat))) ext.
Proof.
  induction l as [|task l IH]; intros i errs.
  - exists []. cbn. rewrite app_nil_r. repeat split; constructor.
  - cbn [forEach].
    set (e1 := if truthy (detail task) && (500 <? length (detail task))%nat
               then [Error.mk (Some i) (lit "detail")
                       (lit "รายละเอียดงานยาวเกินไป (สูงสุด 500 ตัวอักษร)")]
               else []).
    set (e2 := if truthy (remark task) && (200 <? length (remark task))%nat
               then [Error.mk (Some i) (lit "remark")
                       (lit "หมายเหตุยาวเกินไป (สูงสุด 200 ตัวอักษร)")]
               else []).
    assert (Hstep : validateCallback errs task i = errs ++ e1 ++ e2).
    { unfold validateCallback. subst e1 e2.
      destruct (truthy (detail task) && _), (truthy (remark task) && _);
        cbn; by rewrite <- ?app_assoc, ?app_nil_r. }
    rewrite Hstep.
    destruct (IH (S i) (errs ++ e1 ++ e2)) as (ext & Heq & Hnil & Hall).
    exists (e1 ++ e2 ++ ext). split.
    { rewrite Heq. by rewrite <- !app_assoc. }
    split.
    + rewrite Forall_cons, <- Hnil. unfold withinLimits.
      rewrite <- (overLimit (detail task) 500), <- (overLimit (remark task) 200).
      subst e1 e2.
      destruct (truthy (detail task) && _), (truthy (remark task) && _);
        cbn; intuition congruence.
    + apply Forall_app. split; [|apply Forall_app; split].
      * subst e1. destruct (truthy (detail task) && _) eqn:E; [|constructor].
        constructor; [|constructor]. exists 0%nat, task.
        rewrite Nat.add_0_r. split; [done|]. split; [done|]. left.
        split; [done|]. apply andb_prop in E as [_ E]. by apply Nat.ltb_lt.
      * subst e2. destruct (truthy (remark task) && _) eqn:E; [|constructor].
        constructor; [|constructor]. exists 0%nat, task.
        rewrite Nat.add_0_r. split; [done|]. split; [done|]. right.
        split; [done|]. apply andb_prop in E as [_ E]. by apply Nat.ltb_lt.
      * eapply Forall_impl; [exact Hall|].
        intros e (k & t' & Hidx & Hlk & Hf). exists (S k), t'.
        split; [rewrite Hidx; f_equal; lia|]. by split.
Qed.

Lemma taskValidate_parts (tm : t) :
  (Validation.valid (validate tm) = true ↔ Forall withinLimits (tasks tm))
  ∧ (Validation.valid (validate tm) = true ↔ Validation.errors (validate tm) = []).
Proof.
  unfold validate. cbn [Validation.valid Validation.errors].
  destruct (forEach_validateCallback (tasks tm) 0 []) as (ext & Heq & Hnil & _).
  rewrite Heq. cbn [app]. rewrite Nat.eqb_eq.
  split; [rewrite <- Hnil|]; by destruct ext.
Qed.

(** X7. [TaskManager.validate] reports the list valid exactly when every
    task has a detail of at most 500 and a remark of at most 200 code units;
    the list is valid exactly when no error is listed, and every listed
    error carries the index of a task of the list that breaks the limit of
    the field the error names. *)
Theorem taskValidate_limits (tm : t) :
  let v := validate tm in
  (Validation.valid v = true ↔ Forall withinLimits (tasks tm))
  ∧ (Validation.valid v = true ↔ Validation.errors v = [])
  ∧ Forall (taskErrorOf (tasks tm)) (Validation.errors v).
Proof.
  cbv zeta. unfold validate. cbn [Validation.valid Validation.errors].
  destruct (forEach_validateCallback (tasks tm) 0 []) as (ext & Heq & Hnil & Hall).
  rewrite Heq. cbn [app].
  assert (Hz : (length ext =? 0)%nat = true ↔ ext = []).
  { rewrite Nat.eqb_eq. by destruct ext. }
  split; [by rewrite Hz|]. split; [done|].
  eapply Forall_impl; [exact Hall|].
  intros e (k & task & Hidx & Hlk & Hf). by exists k, task.
Qed.

Lemma forEach_summaryCallback (toLowerCase : jsstring → jsstring) (l : list Task) :
  ∀ (i : nat) (sm : Summary),
    total (forEach (summaryCallback toLowerCase) l i sm) = total sm
    ∧ counted (forEach (summaryCallback toLowerCase) l i sm)
      = (counted sm + length l)%nat.
Proof.
  induction l as [|task l IH]; intros i sm; [cbn; lia|].
  cbn [forEach length].
  destruct (IH (S i) (summaryCallback toLowerCase sm task i)) as [Ht Hc].
  rewrite Ht, Hc. unfold summaryCallback. destruct sm as [t o n p ip w x].
  repeat match goal with
         | |- context [if ?b then _ else _] => destruct b
         end; unfold counted; cbn; lia.
Qed.

(** X8. [getSummary] counts every task once: [total] is the number of
    tasks, and the counters [ok], [ng], [pending], [inProgress], [waiting]
    and [other] add up to it, whatever the statuses are. *)
Theorem getSummary_counts_every_task (toLowerCase : jsstring → jsstring) (tm : t) :
  let sm := getSummary toLowerCase tm in
  total sm = length (tasks tm) ∧ counted sm = total sm.
Proof.
  cbv zeta. unfold getSummary.
  destruct (forEach_summaryCallback toLowerCase (tasks tm) 0
              (mkSummary (length (tasks tm)) 0 0 0 0 0 0)) as [Ht Hc].
  rewrite Ht, Hc. by cbn.
Qed.

End TaskChecks.

(* ===================================================================== *)
(** * Storage: draft, history, theme *)
(* ===================================================================== *)

Section Storage.

Import StorageManager.

Variable medium : LocalStorage -> Entry -> option Exception.

Lemma handleQuotaExceeded_cases (sm : t) :
  handleQuotaExceeded medium sm = sm
  ∨ ((5 < length (loadHistory sm))%nat
     ∧ handleQuotaExceeded medium sm
       = mk true (put (REPORT_HISTORY
                         (take (length (loadHistory sm) / 2)%nat (loadHistory sm)))
                      (localStorage sm))).
Proof.
  destruct (decide (5 < length (loadHistory sm))%nat) as [H|H].
  - assert (Hav : isAvailable sm = true).
    { unfold loadHistory in H. destruct (isAvailable sm); [done|]. cbn in H. lia. }
    rewrite (handleQuotaExceeded_large medium sm Hav H). cbv zeta.
    destruct (medium _ _); [by left|]. right. by split.
  - left. apply handleQuotaExceeded_small. lia.
Qed.

(** X9. A draft that the storage accepts can be read back: [saveReportData]
    returns [true], [loadReportData] then gives the saved data, and the
    history and the theme are as before. *)
Theorem saveReportData_loadReportData (d : ReportData) (sm : t) :
  isAvailable sm = true →
  medium (localStorage sm) (REPORT_DATA d) = None →
  let r := saveReportData medium d sm in
  r.1 = true
  ∧ loadReportData r.2 = Some d
  ∧ loadHistory r.2 = loadHistory sm
  ∧ getTheme r.2 = getTheme sm.
Proof.
  intros Hav Hok. cbv zeta. unfold saveReportData, setItem.
  rewrite Hav, Hok. cbn [negb fst snd].
  unfold loadReportData, loadHistory, getTheme. rewrite Hav. by cbn.
Qed.

(** X10. Without storage every operation is a no-op with its fallback
    value: the saves and the clears return [false] and leave the manager as
    it is, the loads give no draft and no history, the theme is "light",
    and the quota recovery changes nothing. *)
Theorem unavailable_storage_is_inert (d : ReportData) (now v : jsstring) (sm : t) :
  isAvailable sm = false →
  saveReportData medium d sm = (false, sm)
  ∧ loadReportData sm = None
  ∧ saveToHistory medium d now sm = (false, sm)
  ∧ loadHistory sm = []
  ∧ clearHistory sm = (false, sm)
  ∧ getTheme sm = lit "light"
  ∧ saveTheme medium v sm = (false, sm)
  ∧ clearAll sm = (false, sm)
  ∧ handleQuotaExceeded medium sm = sm.
Proof.
  intros Hav.
  unfold saveReportData, loadReportData, saveToHistory, loadHistory, clearHistory,
    getTheme, saveTheme, clearAll, handleQuotaExceeded, loadHistory.
  rewrite Hav. by cbn.
Qed.

(** X11. [saveReportData] either stores the draft and leaves the history, or
    returns [false] with the stored draft as it was; in the second case the
    history can only have lost its oldest entries (the quota recovery). The
    theme is never touched. *)
Theorem saveReportData_outcomes (d : ReportData) (sm : t) :
  let r := saveReportData medium d sm in
  theme (localStorage r.2) = theme (localStorage sm)
  ∧ isAvailable r.2 = isAvailable sm
  ∧ ((r.1 = true
      ∧ reportData (localStorage r.2) = Some d
      ∧ reportHistory (localStorage r.2) = reportHistory (localStorage sm))
     ∨ (r.1 = false
        ∧ reportData (localStorage r.2) = reportData (localStorage sm)
        ∧ loadHistory r.2 `prefix_of` loadHistory sm)).
Proof.
  cbv zeta. unfold saveReportData, setItem.
  destruct (isAvailable sm) eqn:Hav; cbn [negb].
  - destruct (medium _ _) as [[]|]; cbn [fst snd].
    + destruct (handleQuotaExceeded_cases sm) as [-> | [_ ->]].
      * rewrite Hav. split; [done|]. split; [done|]. by right.
      * cbn. split; [done|]. split; [done|]. right.
        split; [done|]. split; [done|].
        change (loadHistory (mk true (put (REPORT_HISTORY
                 (take (length (loadHistory sm) / 2)%nat (loadHistory sm)))
                 (localStorage sm))))
          with (take (length (loadHistory sm) / 2)%nat (loadHistory sm)).
        apply prefix_take.
    + rewrite Hav. split; [done|]. split; [done|]. by right.
    + cbn. split; [done|]. split; [done|]. by left.
  - cbn [fst snd]. rewrite Hav. split; [done|]. split; [done|]. by right.
Qed.

(** X12. An append that the storage accepts puts the new entry in front of
    the old ones, which keep their order; the result is cut to 20 entries,
    so below 20 nothing is dropped and the history grows by one. The draft
    and the theme are as before. *)
Theorem saveToHistory_prepends (d : ReportData) (now : jsstring) (sm : t) :
  isAvailable sm = true → emptyReport d = false →
  medium (localStorage sm)
    (REPORT_HISTORY (take MAX_HISTORY_ITEMS (newItem now d :: loadHistory sm)))
  = None →
  let r := saveToHistory medium d now sm in
  r.1 = true
  ∧ loadHistory r.2 = take 20 (newItem now d :: loadHistory sm)
  ∧ ((length (loadHistory sm) < 20)%nat →
     loadHistory r.2 = newItem now d :: loadHistory sm)
  ∧ loadReportData r.2 = loadReportData sm
  ∧ getTheme r.2 = getTheme sm.
Proof.
  intros Hav Hne Hok. cbv zeta.
  rewrite (saveToHistory_write medium d now sm Hav Hne), Hok. cbn [fst snd].
  rewrite loadHistory_put. split; [done|]. split; [done|].
  split.
  - intros Hlen. apply take_ge. cbn [length]. change MAX_HISTORY_ITEMS with 20%nat. lia.
  - unfold loadReportData, getTheme. rewrite Hav. by cbn.
Qed.

Lemma handleQuotaExceeded_keeps (sm : t) :
  take 3 (loadHistory (handleQuotaExceeded medium sm)) = take 3 (loadHistory sm)
  ∧ loadHistory (handleQuotaExceeded medium sm) `prefix_of` loadHistory sm
  ∧ loadReportData (handleQuotaExceeded medium sm) = loadReportData sm
  ∧ getTheme (handleQuotaExceeded medium sm) = getTheme sm.
Proof.
  destruct (handleQuotaExceeded_cases sm) as [-> | [Hlen ->]]; [done|].
  assert (Hav : isAvailable sm = true).
  { unfold loadHistory in Hlen. destruct (isAvailable sm); [done|]. cbn in Hlen. lia. }
  rewrite loadHistory_put.
  split.
  { rewrite take_take. f_equal.
    pose proof (Nat.div_le_lower_bound (length (loadHistory sm)) 2 3). lia. }
  split; [apply prefix_take|].
  unfold loadReportData, getTheme. rewrite Hav. by cbn.
Qed.

(** X13. The quota recovery only ever drops entries from the old end of the
    history: what is left is a front part of the old history, and however
    often the recovery runs, the three most recent entries, the draft and
    the theme stay. *)
Theorem quota_recovery_keeps_recent (n : nat) (sm : t) :
  let sm' := Nat.iter n (handleQuotaExceeded medium) sm in
  loadHistory sm' `prefix_of` loadHistory sm
  ∧ take 3 (loadHistory sm') = take 3 (loadHistory sm)
  ∧ loadReportData sm' = loadReportData sm
  ∧ getTheme sm' = getTheme sm.
Proof.
  cbv zeta. induction n as [|n (IH1 & IH2 & IH3 & IH4)]; [done|].
  cbn [Nat.iter nat_rect].
  destruct (handleQuotaExceeded_keeps (Nat.iter n (handleQuotaExceeded medium) sm))
    as (H1 & H2 & H3 & H4).
  unfold Nat.iter in *. split; [by etransitivity|].
  split; [congruence|]. split; congruence.
Qed.

(** X14. [clearAll] removes the draft and the history and keeps the theme;
    [clearHistory] removes the history and keeps the draft and the theme.
    Both return [true] exactly when the storage is available. *)
Theorem clears_keep_the_theme (sm : t) :
  (clearAll sm).1 = isAvailable sm
  ∧ loadReportData (clearAll sm).2 = None
  ∧ loadHistory (clearAll sm).2 = []
  ∧ getTheme (clearAll sm).2 = getTheme sm
  ∧ (clearHistory sm).1 = isAvailable sm
  ∧ loadHistory (clearHistory sm).2 = []
  ∧ loadReportData (clearHistory sm).2 = loadReportData sm
  ∧ getTheme (clearHistory sm).2 = getTheme sm.
Proof.
  unfold clearAll, clearHistory, loadReportData, loadHistory, getTheme.
  destruct (isAvailable sm) eqn:Hav; cbn; rewrite ?Hav; by cbn.
Qed.

Lemma getTheme_not_empty (sm : t) : getTheme sm ≠ [].
Proof.
  unfold getTheme. destruct (isAvailable sm); cbn [negb]; [|by vm_compute].
  destruct (theme (localStorage sm)) as [[|c w]|]; cbn; by vm_compute.
Qed.

(** X15. [getTheme] never returns the empty string, whatever the storage
    holds and whether it is available or not. A theme that an available
    storage accepts is read back as it was saved, except the empty string,
    which reads back as "light"; saving a theme leaves the draft and the
    history alone. *)
Theorem saveTheme_getTheme (v : jsstring) (sm : t) :
  getTheme sm ≠ []
  ∧ getTheme (saveTheme medium v sm).2 ≠ []
  ∧ (isAvailable sm = true →
     medium (localStorage sm) (THEME v) = None →
     let r := saveTheme medium v sm in
     r.1 = true
     ∧ getTheme r.2 = (if truthy v then v else lit "light")
     ∧ loadReportData r.2 = loadReportData sm
     ∧ loadHistory r.2 = loadHistory sm).
Proof.
  split; [apply getTheme_not_empty|]. split; [apply getTheme_not_empty|].
  intros Hav Hok. cbv zeta. unfold saveTheme, setItem. rewrite Hav, Hok.
  cbn [negb fst snd]. unfold getTheme, loadReportData, loadHistory.
  rewrite Hav. cbn [negb isAvailable localStorage put theme reportData reportHistory].
  done.
Qed.

End Storage.

(** X9 on an empty storage that accepts every write. *)
Lemma saveReportData_loadReportData_witness :
  (StorageManager.saveReportData unlimited sampleData emptyStorage).1 = true
  ∧ StorageManager.loadReportData
      (StorageManager.saveReportData unlimited sampleData emptyStorage).2
    = Some sampleData.
Proof.
  destruct (saveReportData_loadReportData unlimited sampleData emptyStorage)
    as (H1 & H2 & _); [reflexivity | reflexivity |].
  split; [exact H1 | exact H2].
Defined.

(** X10 on a manager whose storage is not available. *)
Lemma unavailable_storage_is_inert_witness :
  let sm := StorageManager.mk false (StorageManager.mkLocalStorage None None None) in
  StorageManager.saveToHistory unlimited sampleData (lit "now") sm = (false, sm)
  ∧ StorageManager.getTheme sm = lit "light".
Proof.
  cbv zeta.
  destruct (unavailable_storage_is_inert unlimited sampleData (lit "now") (lit "dark")
              (StorageManager.mk false (StorageManager.mkLocalStorage None None None)))
    as (_ & _ & H3 & _ & _ & H6 & _); [reflexivity|].
  split; [exact H3 | exact H6].
Defined.

(** X12 on a history of three entries. *)
Lemma saveToHistory_prepends_witness :
  StorageManager.loadHistory
    (StorageManager.saveToHistory unlimited sampleData (lit "now")
       (storageWith (historyOf 3))).2
  = newItem (lit "now") sampleData :: historyOf 3.
Proof.
  destruct (saveToHistory_prepends unlimited sampleData (lit "now")
              (storageWith (historyOf 3)))
    as (_ & _ & H3 & _); [reflexivity | by vm_compute | reflexivity |].
  apply H3. vm_compute. lia.
Defined.

(** X15 on the theme "dark", and on a storage that is not available. *)
Lemma saveTheme_getTheme_witness :
  StorageManager.getTheme
    (StorageManager.saveTheme unlimited (lit "dark") emptyStorage).2 = lit "dark"
  ∧ StorageManager.getTheme
      (StorageManager.mk false (StorageManager.mkLocalStorage None None (Some [])))
    ≠ [].
Proof.
  destruct (saveTheme_getTheme unlimited (lit "dark") emptyStorage)
    as (_ & _ & H).
  destruct H as (_ & H2 & _); [reflexivity | reflexivity |].
  split; [exact H2|].
  exact (proj1 (saveTheme_getTheme unlimited (lit "dark")
                  (StorageManager.mk false
                     (StorageManager.mkLocalStorage None None (Some []))))).
Defined.

(* ===================================================================== *)
(** * Report state: persistence, export, validation *)
(* ===================================================================== *)

Section Report.

Import ReportManager.

Variable medium :
  StorageManager.LocalStorage -> StorageManager.Entry ->
  option StorageManager.Exception.

Lemma state_of_fields (st : State.t) :
  State.mk (orEmpty (Some (State.workBom st)))
           (orEmpty (Some (State.projectName st)))
           (orEmpty (Some (State.problems st))) = st.
Proof. rewrite !orEmpty_Some. by destruct st. Qed.

Lemma addTask_noFields (tm : TaskManager.t) :
  TaskManager.tasks (TaskManager.addTask TaskManager.noFields tm).2
  = TaskManager.tasks tm ++ [blankTask].
Proof. reflexivity. Qed.

Lemma save_synced (s : Session) :
  StorageManager.isAvailable (storageManager s) = true →
  (∀ ls e, medium ls e = None) →
  StorageManager.loadReportData (storageManager (save medium s)) = Some (getState s)
  ∧ getState (save medium s) = getState s.
Proof.
  intros Hav Hok. split; [|reflexivity].
  unfold save. cbn [storageManager withStorage].
  unfold StorageManager.saveReportData, StorageManager.setItem.
  rewrite Hav, Hok. reflexivity.
Qed.


(** X17. The operations that load or reset the report leave at least one
    task: [restoreFromHistory], [clearTasks], [resetAll] and [load] never
    end with an empty task list. A restore from data without tasks, a clear
    and a reset leave exactly one blank task; a load without a usable task
    list appends one blank task. *)
Theorem at_least_one_task (h : ReportData) (s : Session) :
  TaskManager.tasks (taskManager (restoreFromHistory medium h s)) ≠ []
  ∧ (tasks h = None ∨ tasks h = Some [] →
     TaskManager.tasks (taskManager (restoreFromHistory medium h s)) = [blankTask])
  ∧ TaskManager.tasks (taskManager (clearTasks medium s)) = [blankTask]
  ∧ TaskManager.tasks (taskManager (resetAll medium s)) = [blankTask]
  ∧ TaskManager.tasks (taskManager (load s).2) ≠ []
  ∧ (StorageManager.loadReportData (storageManager s) = None →
     (load s).1 = false
     ∧ TaskManager.tasks (taskManager (load s).2)
       = TaskManager.tasks (taskManager s) ++ [blankTask]
     ∧ state (reportManager (load s).2) = state (reportManager s)).
Proof.
  split; [|split; [|split; [|split; [|split]]]].
  - unfold restoreFromHistory.
    destruct (tasks h) as [[|x ts]|]; cbn; done.
  - unfold restoreFromHistory. intros [-> | ->]; reflexivity.
  - reflexivity.
  - reflexivity.
  - unfold load.
    destruct (StorageManager.loadReportData (storageManager s)) as [d|].
    + destruct (tasks d) as [[|x ts]|]; cbn [fst snd].
      * cbn. by destruct (TaskManager.tasks (taskManager s)).
      * cbn. done.
      * cbn. by destruct (TaskManager.tasks (taskManager s)).
    + cbn. by destruct (TaskManager.tasks (taskManager s)).
  - intros Hnone. unfold load. rewrite Hnone. by cbn.
Qed.

(** X18. With an available storage that accepts every write, each mutating
    operation of the report manager leaves the stored draft equal to the
    live state: after [setState], [restoreFromHistory], [clearTasks],
    [resetAll] and a successful [import], [loadReportData] gives exactly
    what [getState] gives. *)
Theorem draft_follows_state (updates : State.t → State.t) (h : ReportData)
    (importData : ImportData) (s : Session) :
  StorageManager.isAvailable (storageManager s) = true →
  (∀ ls e, medium ls e = None) →
  let synced (s' : Session) :=
    StorageManager.loadReportData (storageManager s') = Some (getState s') in
  synced (setState medium updates s)
  ∧ synced (restoreFromHistory medium h s)
  ∧ synced (clearTasks medium s)
  ∧ synced (resetAll medium s)
  ∧ ((import medium importData s).1 = true →
     synced (import medium importData s).2).
Proof.
  intros Hav Hok. cbv zeta.
  assert (Hsave : ∀ x, storageManager x = storageManager s →
     StorageManager.loadReportData (storageManager (save medium x))
     = Some (getState (save medium x))).
  { intros x Hx. destruct (save_synced x) as [H1 H2]; [by rewrite Hx | done |].
    by rewrite H2. }
  split; [by apply Hsave|]. split.
  { unfold restoreFromHistory.
    destruct (tasks h) as [ts|]; [destruct (0 <? length ts)%nat|]; by apply Hsave. }
  split; [by apply Hsave|]. split; [by apply Hsave|].
  unfold import. destruct (data importData) as [d|]; [|done].
  intros _. cbn [snd]. destruct (tasks d); by apply Hsave.
Qed.

(** X19. A saved draft loads back: after [save] on an available storage
    that accepts the write, [load] into a session with that storage returns
    [true] and sets the scalar fields of the saved session; it sets the
    saved task list when that list is not empty, and appends one blank task
    otherwise. *)
Theorem save_load_roundtrip (s s2 : Session) :
  StorageManager.isAvailable (storageManager s) = true →
  (∀ ls e, medium ls e = None) →
  storageManager s2 = storageManager (save medium s) →
  (load s2).1 = true
  ∧ state (reportManager (load s2).2) = state (reportManager s)
  ∧ (TaskManager.tasks (taskManager s) ≠ [] →
     TaskManager.tasks (taskManager (load s2).2) = TaskManager.tasks (taskManager s))
  ∧ (TaskManager.tasks (taskManager s) = [] →
     TaskManager.tasks (taskManager (load s2).2)
     = TaskManager.tasks (taskManager s2) ++ [blankTask]).
Proof.
  intros Hav Hok Hst.
  destruct (save_synced s Hav Hok) as [Hload _].
  unfold load. rewrite Hst, Hload.
  unfold getState. cbn [tasks workBom projectName problems TaskManager.getTasks].
  rewrite state_of_fields. unfold TaskManager.getTasks.
  destruct (TaskManager.tasks (taskManager s)) as [|x ts] eqn:E.
  - split; [reflexivity|]. split; [reflexivity|].
    split; [done|]. intros _. reflexivity.
  - split; [reflexivity|]. split; [reflexivity|].
    split; [|done]. intros _. reflexivity.
Qed.

(** X20. [ReportManager.validate] finds the state valid exactly when the
    Work BOM and the project name pass their validators and every task is
    within the limits of [TaskManager.validate]; the state is valid exactly
    when no error is listed. *)
Theorem reportValidate_conditions (s : Session) :
  let st := state (reportManager s) in
  let v := validate s in
  (Validation.valid v = true
   ↔ Utils.validateWorkBom (State.workBom st) = true
     ∧ Utils.validateProjectName (State.projectName st) = true
     ∧ Forall withinLimits (TaskManager.tasks (taskManager s)))
  ∧ (Validation.valid v = true ↔ Validation.errors v = []).
Proof.
  cbv zeta. unfold validate. cbn [Validation.valid Validation.errors].
  destruct (taskValidate_parts (taskManager s)) as (Hv & He).
  remember (TaskManager.validate (taskManager s)) as tv eqn:Htv. clear Htv.
  assert (Hwb : truthy (State.workBom (state (reportManager s)))
                && negb (Utils.validateWorkBom (State.workBom (state (reportManager s))))
                = negb (Utils.validateWorkBom (State.workBom (state (reportManager s))))).
  { by destruct (State.workBom (state (reportManager s))). }
  assert (Hpn : truthy (State.projectName (state (reportManager s)))
                && negb (Utils.validateProjectName
                           (State.projectName (state (reportManager s))))
                = negb (Utils.validateProjectName
                          (State.projectName (state (reportManager s))))).
  { by destruct (State.projectName (state (reportManager s))). }
  rewrite Hwb, Hpn, <- Hv. clear Hwb Hpn Hv.
  destruct (Utils.validateWorkBom _), (Utils.validateProjectName _),
    (Validation.valid tv) eqn:Etv; cbn [negb app];
    try (destruct (Validation.errors tv) as [|e l] eqn:Eerr;
         [exfalso; destruct He as [_ He]; discriminate (He eq_refl)|]);
    cbn; repeat split; try done; intuition (discriminate || congruence).
Qed.

End Report.

(** X18 on a session with an empty, unlimited storage. *)
Lemma draft_follows_state_witness :
  StorageManager.loadReportData
    (ReportManager.storageManager (ReportManager.resetAll unlimited sampleSession))
  = Some (ReportManager.getState (ReportManager.resetAll unlimited sampleSession)).
Proof.
  destruct (draft_follows_state unlimited (fun st => st) sampleData envelopeNoTasks
              sampleSession) as (_ & _ & _ & H & _);
    [reflexivity | intros ls e; reflexivity |].
  exact H.
Defined.

(** X19 on a session with two tasks, loaded into itself after the save. *)
Lemma save_load_roundtrip_witness :
  (ReportManager.load (ReportManager.save unlimited sampleSession)).1 = true
  ∧ ReportManager.state
      (ReportManager.reportManager
         (ReportManager.load (ReportManager.save unlimited sampleSession)).2)
    = ReportManager.state (ReportManager.reportManager sampleSession).
Proof.
  destruct (save_load_roundtrip unlimited sampleSession
              (ReportManager.save unlimited sampleSession))
    as (H1 & H2 & _); [reflexivity | intros ls e; reflexivity | reflexivity |].
  split; [exact H1 | exact H2].
Defined.

(* ===================================================================== *)
(** * History entries, the copy handler, the theme toggle *)
(* ===================================================================== *)

Section Handlers.

Import ReportManager.

Variable medium :
  StorageManager.LocalStorage -> StorageManager.Entry ->
  option StorageManager.Exception.

Lemma saveToHistory_true_inv (d : ReportData) (now : jsstring)
    (sm : StorageManager.t) :
  (StorageManager.saveToHistory medium d now sm).1 = true →
  StorageManager.isAvailable sm = true
  ∧ StorageManager.emptyReport d = false
  ∧ medium (StorageManager.localStorage sm)
      (StorageManager.REPORT_HISTORY
         (take StorageManager.MAX_HISTORY_ITEMS
            (newItem now d :: StorageManager.loadHistory sm))) = None.
Proof.
  intros H.
  assert (Hav : StorageManager.isAvailable sm = true).
  { unfold StorageManager.saveToHistory in H.
    by destruct (StorageManager.isAvailable sm). }
  assert (Hne : StorageManager.emptyReport d = false).
  { unfold StorageManager.saveToHistory in H. rewrite Hav in H.
    by destruct (StorageManager.emptyReport d). }
  split; [done|]. split; [done|].
  rewrite (saveToHistory_write medium d now sm Hav Hne) in H.
  by destruct (medium _ _) as [[]|].
Qed.

(** X22. [handleCopy] stops at invalid input: when [validate] finds an
    error it returns without a report and leaves the session, the history
    included, as it was. On valid input it gives the report text of the
    state it was called on, and changes nothing but the storage, which is
    the one [saveToHistory] leaves. *)
Theorem handleCopy_validates_first (now dateStr : jsstring) (s : Session) :
  let r := App.handleCopy medium now dateStr s in
  (Validation.valid (validate s) = false → r = (None, s))
  ∧ (Validation.valid (validate s) = true →
     r.1 = Some (generateReport dateStr s)
     ∧ reportManager r.2 = reportManager s
     ∧ taskManager r.2 = taskManager s
     ∧ storageManager r.2
       = (StorageManager.saveToHistory medium (getState s) now (storageManager s)).2).
Proof.
  cbv zeta. unfold App.handleCopy. split; intros ->; cbn [negb]; [done|].
  unfold saveToHistory.
  destruct (StorageManager.saveToHistory medium (getState s) now (storageManager s))
    as [ok sm']. by cbn.
Qed.

(** X23. The theme toggle only ever shows "light" or "dark": from "light"
    it goes to "dark", from anything else, a missing attribute included, to
    "light"; two toggles bring "light" and "dark" back to themselves. With
    an available storage that accepts the write, [handleThemeToggle] leaves
    the stored theme equal to the one shown. *)
Theorem theme_toggle_two_states (ui : UIManager.t) (sm : StorageManager.t) :
  let r := UIManager.toggleTheme ui in
  (r.1 = lit "light" ∨ r.1 = lit "dark")
  ∧ UIManager.dataTheme r.2 = Some r.1
  ∧ (UIManager.dataTheme ui = Some (lit "light") → r.1 = lit "dark")
  ∧ (UIManager.dataTheme ui ≠ Some (lit "light") → r.1 = lit "light")
  ∧ (UIManager.dataTheme ui = Some (lit "light")
     ∨ UIManager.dataTheme ui = Some (lit "dark") →
     UIManager.dataTheme (UIManager.toggleTheme r.2).2 = UIManager.dataTheme ui)
  ∧ (StorageManager.isAvailable sm = true → (∀ ls e, medium ls e = None) →
     Some (StorageManager.getTheme (App.handleThemeToggle medium ui sm).2)
     = UIManager.dataTheme (App.handleThemeToggle medium ui sm).1).
Proof.
  cbv zeta.
  assert (Hcases : (UIManager.toggleTheme ui).1 = lit "light"
                   ∨ (UIManager.toggleTheme ui).1 = lit "dark").
  { unfold UIManager.toggleTheme. cbn [fst].
    destruct (UIManager.dataTheme ui) as [c|]; [|by left].
    destruct (streq c (lit "light")); [by right | by left]. }
  split; [exact Hcases|]. split; [reflexivity|].
  split.
  { intros H. unfold UIManager.toggleTheme. rewrite H. cbn [fst].
    unfold streq. by rewrite bool_decide_eq_true_2. }
  split.
  { intros H. unfold UIManager.toggleTheme. cbn [fst].
    destruct (UIManager.dataTheme ui) as [c|]; [|done].
    unfold streq. rewrite bool_decide_eq_false_2; [done|]. congruence. }
  split.
  { intros [H|H]; unfold UIManager.toggleTheme; rewrite H; by vm_compute. }
  intros Hav Hok. unfold App.handleThemeToggle.
  destruct (UIManager.toggleTheme ui) as [newTheme ui'] eqn:E.
  cbn [fst snd].
  assert (Hui : UIManager.dataTheme ui' = Some newTheme).
  { unfold UIManager.toggleTheme in E. by injection E as <- <-. }
  rewrite Hui. f_equal.
  unfold StorageManager.saveTheme, StorageManager.setItem. rewrite Hav, Hok.
  cbn [negb snd]. unfold StorageManager.getTheme. cbn.
  cbn [fst] in Hcases. destruct Hcases as [-> | ->]; by vm_compute.
Qed.

End Handlers.

Section HistoryEntry.

Variable medium :
  StorageManager.LocalStorage -> StorageManager.Entry ->
  option StorageManager.Exception.

(** X21. A history entry brings the report back: after a successful
    [saveToHistory] the first entry of the stored history carries the given
    timestamp and the snapshot of the session, and restoring from its data,
    in whatever session, gives the scalar fields of the saved session and,
    when the saved task list was not empty, its tasks. *)
Theorem history_entry_restores (now : jsstring) (s s2 : ReportManager.Session) :
  (ReportManager.saveToHistory medium now s).1 = true →
  ∃ item rest,
    StorageManager.loadHistory
      (ReportManager.storageManager (ReportManager.saveToHistory medium now s).2)
    = item :: rest
    ∧ timestamp item = now
    ∧ data item = ReportManager.getState s
    ∧ ReportManager.state
        (ReportManager.reportManager
           (ReportManager.restoreFromHistory medium (data item) s2))
      = ReportManager.state (ReportManager.reportManager s)
    ∧ (TaskManager.tasks (ReportManager.taskManager s) ≠ [] →
       TaskManager.tasks
         (ReportManager.taskManager
            (ReportManager.restoreFromHistory medium (data item) s2))
       = TaskManager.tasks (ReportManager.taskManager s)).
Proof.
  unfold ReportManager.saveToHistory.
  destruct (StorageManager.saveToHistory medium (ReportManager.getState s) now
              (ReportManager.storageManager s)) as [ok sm'] eqn:E.
  cbn [fst snd ReportManager.storageManager ReportManager.withStorage]. intros ->.
  destruct (saveToHistory_true_inv medium (ReportManager.getState s) now
              (ReportManager.storageManager s))
    as (Hav & Hne & Hok); [by rewrite E|].
  rewrite (saveToHistory_write medium _ now _ Hav Hne), Hok in E.
  injection E as <-.
  exists (newItem now (ReportManager.getState s)),
         (take 19 (StorageManager.loadHistory (ReportManager.storageManager s))).
  split; [reflexivity|]. split; [reflexivity|]. split; [reflexivity|].
  cbn [newItem data].
  split.
  - rewrite restoreFromHistory_state. unfold ReportManager.getState.
    cbn [workBom projectName problems]. apply state_of_fields.
  - intros Hts. by apply restoreFromHistory_tasks.
Qed.

End HistoryEntry.

(** X21 on a session with a BOM, a project and two tasks. *)
Lemma history_entry_restores_witness :
  ∃ item rest,
    StorageManager.loadHistory
      (ReportManager.storageManager
         (ReportManager.saveToHistory unlimited (lit "now") sampleSession).2)
    = item :: rest
    ∧ timestamp item = lit "now".
Proof.
  destruct (history_entry_restores unlimited (lit "now") sampleSession sampleSession)
    as (item & rest & H1 & H2 & _); [by vm_compute|].
  exists item, rest. split; [exact H1 | exact H2].
Defined.

(* ===================================================================== *)
(** * HTML escaping *)
(* ===================================================================== *)

Section Escape.

Import Utils.

Lemma replaceSpecial_cases (c : char16) :
  (c = 0x26 ∧ replaceSpecial c = [0x26; 0x61; 0x6D; 0x70; 0x3B])
  ∨ (c = 0x3C ∧ replaceSpecial c = [0x26; 0x6C; 0x74; 0x3B])
  ∨ (c = 0x3E ∧ replaceSpecial c = [0x26; 0x67; 0x74; 0x3B])
  ∨ (c = 0x22 ∧ replaceSpecial c = [0x26; 0x71; 0x75; 0x6F; 0x74; 0x3B])
  ∨ (c = 0x27 ∧ replaceSpecial c = [0x26; 0x23; 0x30; 0x33; 0x39; 0x3B])
  ∨ (htmlSpecial c = false ∧ replaceSpecial c = [c]).
Proof.
  destruct (N.eq_dec c 0x26) as [->|H1]; [left; by vm_compute|].
  destruct (N.eq_dec c 0x3C) as [->|H2]; [right; left; by vm_compute|].
  destruct (N.eq_dec c 0x3E) as [->|H3]; [right; right; left; by vm_compute|].
  destruct (N.eq_dec c 0x22) as [->|H4]; [right; right; right; left; by vm_compute|].
  destruct (N.eq_dec c 0x27) as [->|H5];
    [right; right; right; right; left; by vm_compute|].
  do 5 right.
  assert (H : htmlSpecial c = false).
  { unfold htmlSpecial. apply N.eqb_neq in H1, H2, H3, H4, H5.
    by rewrite H1, H2, H3, H4, H5. }
  split; [done|]. unfold replaceSpecial. by rewrite H.
Qed.

Lemma escapeHTML_bind (s : jsstring) : escapeHTML s = s ≫= replaceSpecial.
Proof. by destruct s. Qed.

Lemma htmlSpecial_false (c : char16) :
  htmlSpecial c = false ↔ c ≠ 0x26 ∧ c ≠ 0x3C ∧ c ≠ 0x3E ∧ c ≠ 0x22 ∧ c ≠ 0x27.
Proof.
  unfold htmlSpecial. rewrite !orb_false_iff, !N.eqb_neq. tauto.
Qed.

(** X24. The output of [escapeHTML] holds no angle bracket and no quote,
    double or single; it is at least as long as the input, and a string
    without any of the five special characters comes out unchanged (the
    empty string included). *)
Theorem escapeHTML_output_is_safe (s : jsstring) :
  Forall (fun c => c ≠ 0x3C ∧ c ≠ 0x3E ∧ c ≠ 0x22 ∧ c ≠ 0x27) (escapeHTML s)
  ∧ (length s ≤ length (escapeHTML s))%nat
  ∧ (Forall (fun c => htmlSpecial c = false) s → escapeHTML s = s).
Proof.
  rewrite escapeHTML_bind. induction s as [|c s (IH1 & IH2 & IH3)].
  - split; [constructor|]. split; [done|done].
  - cbn [mbind list_bind]. change (foldr _ _ ?l) with (l ≫= replaceSpecial) in *.
    rewrite length_app. cbn [length].
    destruct (replaceSpecial_cases c)
      as [[-> E]|[[-> E]|[[-> E]|[[-> E]|[[-> E]|[N E]]]]]]; rewrite E.
    1-5: split; [apply Forall_app; split; [repeat constructor; lia | exact IH1]|];
         split; [cbn; lia|]; intros H; inversion H as [|? ? Hc _];
         vm_compute in Hc; discriminate Hc.
    split.
    + apply Forall_app. split; [|exact IH1].
      apply htmlSpecial_false in N. repeat constructor; tauto.
    + split; [cbn; lia|]. intros H. inversion H as [|? ? _ Hs]. subst.
      cbn [app]. f_equal. by apply IH3.
Qed.

(** X25. [escapeHTML] loses nothing: two strings with the same escaped form
    are the same string. *)
Theorem escapeHTML_injective (s1 s2 : jsstring) :
  escapeHTML s1 = escapeHTML s2 → s1 = s2.
Proof.
  rewrite !escapeHTML_bind. revert s2.
  assert (Hne : ∀ c r, replaceSpecial c ++ r ≠ []).
  { intros c r.
    destruct (replaceSpecial_cases c)
      as [[-> E]|[[-> E]|[[-> E]|[[-> E]|[[-> E]|[N E]]]]]]; by rewrite E. }
  induction s1 as [|c1 s1 IH]; intros [|c2 s2] H.
  - done.
  - cbn [mbind list_bind] in H. symmetry in H. by apply Hne in H.
  - cbn [mbind list_bind] in H. by apply Hne in H.
  - cbn [mbind list_bind] in H.
    change (foldr _ _ s1) with (s1 ≫= replaceSpecial) in H.
    change (foldr _ _ s2) with (s2 ≫= replaceSpecial) in H.
    destruct (replaceSpecial_cases c1)
      as [[-> E1]|[[-> E1]|[[-> E1]|[[-> E1]|[[-> E1]|[N1 E1]]]]]];
    destruct (replaceSpecial_cases c2)
      as [[-> E2]|[[-> E2]|[[-> E2]|[[-> E2]|[[-> E2]|[N2 E2]]]]]];
    rewrite ?E1, ?E2 in H; cbn [app] in H; simplify_eq;
    try (f_equal; by apply IH);
    repeat match goal with
           | Hs : htmlSpecial _ = false |- _ => vm_compute in Hs; try discriminate Hs; clear Hs
           end.
Qed.

End Escape.

(* ===================================================================== *)
(** * Report text: when the numbers are consecutive *)
(* ===================================================================== *)

Section Consecutive.

Import ReportManager.

Lemma numberedFrom_app (l1 l2 : list Task) :
  ∀ offset, numberedFrom offset (l1 ++ l2)
            = numberedFrom offset l1 ++ numberedFrom (offset + length l1) l2.
Proof.
  induction l1 as [|task l1 IH]; intros offset.
  - cbn [app length]. by rewrite Nat.add_0_r.
  - cbn [app length]. rewrite !numberedFrom_cons, IH, <- app_assoc.
    do 3 f_equal. lia.
Qed.

Lemma numberedFrom_all (l : list Task) :
  Forall (fun task => truthy (detail task) = true) l →
  ∀ offset, numberedFrom offset l = imap (fun i task => (S (offset + i), task)) l.
Proof.
  induction 1 as [|task l Ht _ IH]; intros offset; [done|].
  rewrite numberedFrom_cons, Ht, IH, imap_cons, Nat.add_0_r. cbn [app].
  f_equal. apply imap_ext. intros i x _. cbn. f_equal. lia.
Qed.

Lemma numberedFrom_none (l : list Task) :
  Forall (fun task => truthy (detail task) = false) l →
  ∀ offset, numberedFrom offset l = [].
Proof.
  induction 1 as [|task l Ht _ IH]; intros offset; [done|].
  by rewrite numberedFrom_cons, Ht, IH.
Qed.

Lemma filter_detail_all (l : list Task) :
  Forall (fun task => truthy (detail task) = true) l →
  filter (fun task => truthy (detail task) = true) l = l.
Proof.
  induction 1 as [|task l Ht _ IH]; [done|].
  rewrite filter_cons_True by done. by rewrite IH.
Qed.

Lemma filter_detail_none (l : list Task) :
  Forall (fun task => truthy (detail task) = false) l →
  filter (fun task => truthy (detail task) = true) l = [].
Proof.
  induction 1 as [|task l Ht _ IH]; [done|].
  rewrite filter_cons_False by congruence. exact IH.
Qed.

(** X26. When the tasks with an empty detail all come after the tasks with
    a detail, the task loop of [generateReport] numbers the lines 1, 2, 3,
    ... without a gap: it emits the lines of the tasks with a detail, each
    under its rank among them, and reports that it found a task exactly
    when there is one with a detail. *)
Theorem numbering_consecutive_when_blanks_last (l1 l2 : list Task)
    (parts : list jsstring) :
  Forall (fun task => truthy (detail task) = true) l1 →
  Forall (fun task => truthy (detail task) = false) l2 →
  numberedByPosition (l1 ++ l2) = numberedConsecutively (l1 ++ l2)
  ∧ forEach taskCallback (l1 ++ l2) 0 (parts, false)
    = (parts ++ (imap (fun i task => (S i, task)) l1
                   ≫= (fun it => taskLines it.1 it.2)),
       nonEmpty l1).
Proof.
  intros H1 H2.
  assert (Hpos : numberedByPosition (l1 ++ l2)
                 = imap (fun i task => (S i, task)) l1).
  { unfold numberedByPosition.
    rewrite numberedFrom_app, (numberedFrom_all l1 H1), (numberedFrom_none l2 H2).
    by rewrite app_nil_r. }
  split.
  - rewrite Hpos. unfold numberedConsecutively.
    by rewrite filter_app, (filter_detail_all l1 H1), (filter_detail_none l2 H2),
      app_nil_r.
  - rewrite forEach_taskCallback. fold (numberedByPosition (l1 ++ l2)).
    rewrite Hpos. cbn [orb]. f_equal. by destruct l1.
Qed.

End Consecutive.

(** X26 on two tasks with a detail followed by a blank one. *)
Lemma numbering_consecutive_when_blanks_last_witness :
  numberedByPosition ([tA; tB] ++ [blankTask])
  = numberedConsecutively ([tA; tB] ++ [blankTask]).
Proof.
  destruct (numbering_consecutive_when_blanks_last [tA; tB] [blankTask] [])
    as [H _]; [repeat constructor | repeat constructor |].
  exact H.
Defined.

(* ===================================================================== *)
(** * Task list: runs of operations *)
(* ===================================================================== *)

Section Runs.

Import TaskManager.

Lemma callOp_effect (op : TaskOp) (tm : t) :
  let r := callOp op tm in
  (length (tasks r.2) + (if isRemoval (op, r.1) then 1 else 0)
   = length (tasks tm) + (if isAdd (op, r.1) then 1 else 0))%nat
  ∧ notifications r.2 = (notifications tm + (if r.1 then 1 else 0))%nat.
Proof.
  cbv zeta. destruct op as [task|index updates|index|index|index]; cbn [callOp].
  - cbn. rewrite length_app. cbn. lia.
  - unfold updateTask. destruct (outOfRange index tm) eqn:E; [cbn; lia|].
    destruct (tasks tm !! Z.to_nat index); cbn; rewrite ?length_insert; lia.
  - unfold removeTask. destruct (outOfRange index tm) eqn:E; [cbn; lia|].
    cbn. unfold outOfRange in E. apply orb_false_iff in E as [E1 E2].
    apply Z.ltb_ge in E1. apply Z.leb_gt in E2.
    rewrite length_delete; [lia|]. apply lookup_lt_is_Some_2. lia.
  - destruct (decide (0 < index < Z.of_nat (length (tasks tm)))%Z) as [H|H].
    + destruct (moveTaskUp_inside index tm H) as (l' & -> & Hlen & _).
      cbn. lia.
    + rewrite moveTaskUp_boundary by lia. cbn. lia.
  - destruct (decide (0 <= index < Z.of_nat (length (tasks tm)) - 1)%Z) as [H|H].
    + destruct (moveTaskDown_inside index tm H) as (l' & -> & Hlen & _).
      cbn. lia.
    + rewrite moveTaskDown_boundary by lia. cbn. lia.
Qed.

(** X27. Over any run of add, update, remove and move calls, the length of
    the task list is the length at the start plus the number of adds minus
    the number of removes that took place, and the listeners are notified
    once for every call that took place and never for a call that returned
    [false]. *)
Theorem run_length_and_notifications (ops : list TaskOp) (tm : t) :
  let r := runOps ops tm in
  (length (tasks r.2) + count isRemoval r.1
   = length (tasks tm) + count isAdd r.1)%nat
  ∧ notifications r.2 = (notifications tm + count tookPlace r.1)%nat
  ∧ fst <$> r.1 = ops.
Proof.
  cbv zeta. revert tm. induction ops as [|op ops IH]; intros tm.
  - cbn. repeat split; lia.
  - cbn [runOps].
    pose proof (callOp_effect op tm) as Hop. cbv zeta in Hop.
    destruct (callOp op tm) as [ok tm1]. cbn [fst snd] in Hop.
    destruct Hop as [Hlen Hnot].
    specialize (IH tm1). destruct (runOps ops tm1) as [log tm2].
    cbn [fst snd] in *. destruct IH as (IH1 & IH2 & IH3).
    unfold count in *. cbn [List.filter tookPlace snd fmap list_fmap].
    destruct (isRemoval (op, ok)), (isAdd (op, ok)), ok; cbn [length];
      (split; [lia|]); (split; [lia|]); by rewrite <- IH3.
Qed.

End Runs.

(** X25 on the text "a<b", written in two ways. *)
Lemma escapeHTML_injective_witness :
  Utils.escapeHTML (lit "a<b") = Utils.escapeHTML ([0x61] ++ lit "<b")
  ∧ lit "a<b" = [0x61] ++ lit "<b".
Proof.
  assert (H : Utils.escapeHTML (lit "a<b") = Utils.escapeHTML ([0x61] ++ lit "<b"))
    by reflexivity.
  split; [exact H|].
  exact (escapeHTML_injective (lit "a<b") ([0x61] ++ lit "<b") H).
Defined.
